(** * The run-program service of [src/app.js]

    A shallow embedding of the request handler [app.post("/run-program")],
    of its helpers [cleanup] and [prepareInputFile], and of the worker
    supervisor of the [cluster.isMaster] branch.

    Conventions of the embedding.
    - A JavaScript string is a [string]; a character stands for one UTF-16
      code unit below 256, the range on which [toLowerCase], [trim] and the
      regular-expression classes are given here in full.
    - The fields of [req.body] are JSON values ([jsval]); a missing field is
      [JUndefined].  JSON numbers are restricted to integers and JSON objects
      are left out as field values.  The string form of a number is given
      for the integers a double holds exactly and prints in full, those of
      magnitude below 2^53 ([Js.exact]); statements about the text of a
      joined array are made for such entries.
    - The calls that leave the process ([fs.mkdir], [fs.writeFile], [fs.rm],
      [exec], [res.status(..).json(..)]) are recorded, in order, as a trace
      of [event]s; what the outside world answers is read from an [env].
    - Logging ([logger], [console]) is not modelled. *)

From Stdlib Require Import String Ascii List ZArith Lia Bool Arith.
From Stdlib Require Import DecimalString.
Import ListNotations.
Local Open Scope string_scope.

(** ** Strings as JavaScript sees them *)

Module JsString.

Definition code_unit (c : ascii) : nat := nat_of_ascii c.

Definition in_range (lo hi : nat) (c : ascii) : bool :=
  (lo <=? code_unit c)%nat && (code_unit c <=? hi)%nat.

(** WhiteSpace and LineTerminator below 256: TAB, LF, VT, FF, CR, SP and
    NBSP.  This is the class [\s] of a regular expression and the set that
    [String.prototype.trim] removes. *)
Definition is_space (c : ascii) : bool :=
  in_range 9 13 c || (code_unit c =? 32)%nat || (code_unit c =? 160)%nat.

Definition is_digit (c : ascii) : bool := in_range 48 57 c.
Definition is_upper (c : ascii) : bool := in_range 65 90 c.
Definition is_lower (c : ascii) : bool := in_range 97 122 c.

(** The class [[a-zA-Z_$]]. *)
Definition is_id_start (c : ascii) : bool :=
  is_lower c || is_upper c || (code_unit c =? 95)%nat || (code_unit c =? 36)%nat.

(** The class [[a-zA-Z\d_$]]. *)
Definition is_id_part (c : ascii) : bool := is_id_start c || is_digit c.

(** [toLowerCase] on one code unit: A-Z, and the Latin-1 capitals
    0xC0-0xDE without the multiplication sign 0xD7. *)
Definition lower_unit (c : ascii) : ascii :=
  if is_upper c || (in_range 192 222 c && negb (code_unit c =? 215)%nat)
  then ascii_of_nat (code_unit c + 32)
  else c.

Fixpoint toLowerCase (s : string) : string :=
  match s with
  | EmptyString => EmptyString
  | String c r => String (lower_unit c) (toLowerCase r)
  end.

Fixpoint take_while (p : ascii -> bool) (s : string) : string :=
  match s with
  | EmptyString => EmptyString
  | String c r => if p c then String c (take_while p r) else EmptyString
  end.

Fixpoint drop_while (p : ascii -> bool) (s : string) : string :=
  match s with
  | EmptyString => EmptyString
  | String c r => if p c then drop_while p r else s
  end.

Fixpoint forallb (p : ascii -> bool) (s : string) : bool :=
  match s with
  | EmptyString => true
  | String c r => p c && forallb p r
  end.

Fixpoint rev_onto (s acc : string) : string :=
  match s with
  | EmptyString => acc
  | String c r => rev_onto r (String c acc)
  end.

Definition rev (s : string) : string := rev_onto s EmptyString.

(** [String.prototype.trim]. *)
Definition trim (s : string) : string :=
  rev (drop_while is_space (rev (drop_while is_space s))).

(** [strip_prefix p s] is the rest of [s] after the literal [p], when [s]
    starts with [p]. *)
Fixpoint strip_prefix (p s : string) : option string :=
  match p, s with
  | EmptyString, _ => Some s
  | String a p', String b s' =>
      if Ascii.eqb a b then strip_prefix p' s' else None
  | String _ _, EmptyString => None
  end.

Definition starts_with (p s : string) : bool :=
  match strip_prefix p s with Some _ => true | None => false end.

(** [String.prototype.includes]. *)
Fixpoint includes (s needle : string) : bool :=
  starts_with needle s ||
  match s with
  | EmptyString => false
  | String _ r => includes r needle
  end.

(** [Array.prototype.join] on entries already turned into strings. *)
Fixpoint join (sep : string) (l : list string) : string :=
  match l with
  | [] => EmptyString
  | [x] => x
  | x :: r => x ++ sep ++ join sep r
  end.

Definition is_empty (s : string) : bool :=
  match s with EmptyString => true | _ => false end.

End JsString.

(** ** JSON values and the primitive operations the handler applies to them *)

#[local] Set Warnings "-register-all".

Inductive jsval : Type :=
| JUndefined
| JNull
| JBool (b : bool)
| JNum (n : Z)
| JStr (s : string)
| JArr (l : list jsval).

Module Js.
Import JsString.

(** ToBoolean.  An array is an object and is truthy, empty or not. *)
Definition truthy (v : jsval) : bool :=
  match v with
  | JUndefined | JNull => false
  | JBool b => b
  | JNum n => negb (n =? 0)%Z
  | JStr s => negb (is_empty s)
  | JArr _ => true
  end.

Definition is_array (v : jsval) : bool :=
  match v with JArr _ => true | _ => false end.

(** The value of [v.length]: [None] is [undefined].  On [null] and
    [undefined] the access itself would throw; the handler reads it only
    behind a truthiness test. *)
Definition length_of (v : jsval) : option Z :=
  match v with
  | JStr s => Some (Z.of_nat (String.length s))
  | JArr l => Some (Z.of_nat (List.length l))
  | _ => None
  end.

(** [x > n] for [x] a number or [undefined] ([undefined] turns into NaN). *)
Definition gt (x : option Z) (n : Z) : bool :=
  match x with
  | Some k => (n <? k)%Z
  | None => false
  end.

Definition string_of_Z (n : Z) : string := NilZero.string_of_int (Z.to_int n).

(** ToString of an array entry as [join] takes it: [null] and [undefined]
    give the empty string, a nested array is joined by a comma. *)
Fixpoint entry_string (v : jsval) : string :=
  match v with
  | JUndefined | JNull => ""
  | JBool true => "true"
  | JBool false => "false"
  | JNum n => string_of_Z n
  | JStr s => s
  | JArr l => join "," (map entry_string l)
  end.

Definition array_join (sep : string) (l : list jsval) : string :=
  join sep (map entry_string l).

(** The values whose [entry_string] is the string JavaScript makes of them.
    A number beyond 2^53 is rounded to a double and, from 10^21 on, printed
    with an exponent; [string_of_Z] does neither. *)
Fixpoint exact (v : jsval) : bool :=
  match v with
  | JNum n => (Z.abs n <? 2 ^ 53)%Z
  | JArr l => List.forallb exact l
  | _ => true
  end.

End Js.

(** ** [path] *)

Module Path.
Import JsString.

(** [path.join(dir, name)] for a normalized, non-empty [dir] and a [name]
    that has no separator and is no dot segment: every use in the
    handler. *)
Definition join (dir name : string) : string := dir ++ "/" ++ name.

(** Last segment of a path without trailing separator. *)
Fixpoint last_segment (s : string) (acc : string) : string :=
  match s with
  | EmptyString => JsString.rev acc
  | String c r =>
      if Ascii.eqb c "/"%char then last_segment r EmptyString
      else last_segment r (String c acc)
  end.

(** [path.basename(p, ext)]: the last segment, without [ext] when the
    segment ends with it and is longer than it. *)
Definition basename (p ext : string) : string :=
  if String.eqb p ext then EmptyString else
  let seg := last_segment p EmptyString in
  match strip_prefix (JsString.rev ext) (JsString.rev seg) with
  | Some r => if is_empty r || is_empty ext then seg else JsString.rev r
  | None => seg
  end.

End Path.

(** ** The Java class-name pattern

    [code.match] is given the pattern: the letters [class], then [\s+],
    then a capture group made of one [[a-zA-Z_$]] and any number of
    [[a-zA-Z\d_$]].  It has no flags, so the leftmost start wins, and both
    repetitions are greedy.  Giving back
    white space never helps (what follows the white space would then be
    white space, which starts no identifier), so the match at one position
    is the one with all the white space and the longest identifier. *)

Module ClassPattern.
Import JsString.

(** The capture group of a match that starts at the front of [s]. *)
Definition match_here (s : string) : option string :=
  match strip_prefix "class" s with
  | None => None
  | Some r =>
      if is_empty (take_while is_space r) then None else
      match drop_while is_space r with
      | String c r' =>
          if is_id_start c then Some (String c (take_while is_id_part r'))
          else None
      | EmptyString => None
      end
  end.

(** [classNameMatch[1]], or [None] when [match] returns [null]. *)
Fixpoint class_name (s : string) : option string :=
  match match_here s with
  | Some id => Some id
  | None =>
      match s with
      | EmptyString => None
      | String _ r => class_name r
      end
  end.

(** The pattern read as a description: [s] is [pre], the word [class],
    one or more white-space characters, an identifier, and a rest. *)
Definition identifier (id : string) : Prop :=
  exists c r, id = String c r /\ is_id_start c = true /\ forallb is_id_part r = true.

Definition occurs (s pre ws id rest : string) : Prop :=
  s = pre ++ "class" ++ ws ++ id ++ rest /\
  ws <> "" /\ forallb is_space ws = true /\ identifier id.

End ClassPattern.

(** ** Effects: the trace of outside calls, and exceptions *)

Record envelope : Type := {
  responseCode : Z;
  output : string;
  errorMessage : string
}.

(** One constructor per call that leaves the process, with its arguments. *)
Inductive event : Type :=
| Mkdir (dir : string)
| WriteFile (path : string) (data : jsval)
| Rm (dir : string)
| Exec (command : string) (timeout : Z)
| Send (status : Z) (body : envelope).

Inductive exn : Type :=
| TypeError (msg : string)
| Error (msg : string).

Definition exn_message (e : exn) : string :=
  match e with TypeError m | Error m => m end.

(** The [error] argument of the [exec] callback. *)
Record exec_error : Type := {
  killed : bool;
  message : string
}.

(** What the world outside the handler answers during one request.
    [None] in a [_result] field of a file-system call means the promise
    resolves, [Some e] that it rejects with [e]. *)
Record env : Type := {
  tempDir : string;                    (* path.join(__dirname, "temp", uuidv4()) *)
  mkdir_result : option exn;
  write_source_result : option exn;
  write_input_result : option exn;
  rm_result : option exn;
  exec_rejects : exn;                  (* thrown by exec for a command that is no string *)
  exec_err : option exec_error;
  exec_stdout : string;
  exec_stderr : string
}.

(** A computation emits events and ends with a value or a thrown exception. *)
Definition M (A : Type) : Type := (list event * (exn + A))%type.

Definition ret {A} (a : A) : M A := ([], inr a).

Definition throw {A} (e : exn) : M A := ([], inl e).

Definition bind {A B} (m : M A) (k : A -> M B) : M B :=
  match m with
  | (t, inl e) => (t, inl e)
  | (t, inr a) => let (t', r) := k a in ((t ++ t')%list, r)
  end.

Definition emit (ev : event) : M unit := ([ev], inr tt).

(** [try { m } catch (err) { h err }]. *)
Definition try_catch {A} (m : M A) (h : exn -> M A) : M A :=
  match m with
  | (t, inl e) => let (t', r) := h e in ((t ++ t')%list, r)
  | (t, inr a) => (t, inr a)
  end.

Notation "x <- m ;; k" := (bind m (fun x => k))
  (at level 61, m at next level, right associativity).
Notation "m ;; k" := (bind m (fun _ => k))
  (at level 61, right associativity).

(** An awaited file-system call: recorded, then resolved or rejected. *)
Definition call (ev : event) (answer : option exn) : M unit :=
  emit ev ;;
  match answer with
  | None => ret tt
  | Some e => throw e
  end.

Definition trace {A} (m : M A) : list event := fst m.
Definition outcome {A} (m : M A) : exn + A := snd m.

(** ** The handler and its helpers *)

Module App.
Import JsString.

Definition newline : string := String (ascii_of_nat 10) EmptyString.

(** [cleanup]: the rejection of [fs.rm] is caught and only logged. *)
Definition cleanup (w : env) (dir : string) : M unit :=
  try_catch (call (Rm dir) (rm_result w)) (fun _ => ret tt).

Definition prepareInputFile (w : env) (dir : string) (inputArray : jsval)
  : M string :=
  match inputArray with
  | JArr l =>
      let inputFilePath := Path.join dir "input.txt" in
      let inputContent := Js.array_join newline l in
      call (WriteFile inputFilePath (JStr inputContent)) (write_input_result w) ;;
      ret inputFilePath
  | _ => throw (Error "Input should be an array of strings.")
  end.

(** What a property read of the object literal [fileExtensions] gives:
    one of its six strings, an object inherited from [Object.prototype],
    or [undefined]. *)
Inductive property : Type :=
| PString (s : string)
| PObject (shown : string)
| PUndefined.

Definition fileExtensions : list (string * string) :=
  [ ("java", "java"); ("python", "py"); ("javascript", "js");
    ("c", "c"); ("cpp", "cpp"); ("csharp", "cs") ].

Fixpoint own (key : string) (o : list (string * string)) : option string :=
  match o with
  | [] => None
  | (k, v) :: r => if String.eqb k key then Some v else own key r
  end.

(** [fileExtensions[key]] for a key already in lower case.  The only
    all-lower-case names on [Object.prototype] are [constructor] and
    [__proto__]; [shown] is what a template literal makes of them. *)
Definition fileExtensions_get (key : string) : property :=
  match own key fileExtensions with
  | Some e => PString e
  | None =>
      if String.eqb key "constructor"
      then PObject "function Object() { [native code] }"
      else if String.eqb key "__proto__" then PObject "[object Object]"
      else PUndefined
  end.

Definition property_truthy (p : property) : bool :=
  match p with
  | PString s => negb (is_empty s)
  | PObject _ => true
  | PUndefined => false
  end.

Definition property_shown (p : property) : string :=
  match p with
  | PString s => s
  | PObject s => s
  | PUndefined => "undefined"
  end.

(** [language.toLowerCase()]: only a string has the method. *)
Definition toLowerCase (language : jsval) : M string :=
  match language with
  | JStr s => ret (JsString.toLowerCase s)
  | _ => throw (TypeError "language.toLowerCase is not a function")
  end.

(** [code.match(...)], reduced to its first capture group. *)
Definition code_match (code : jsval) : M (option string) :=
  match code with
  | JStr s => ret (ClassPattern.class_name s)
  | _ => throw (TypeError "code.match is not a function")
  end.

(** The [switch] over [language.toLowerCase()]; [None] is the
    [undefined] left in [executionCommand] when no case applies. *)
Definition executionCommand (lang dir fileName filePath : string)
    (inputFilePath : option string) : option string :=
  if String.eqb lang "java" then
    let main := Path.basename fileName ".java" in
    Some match inputFilePath with
         | None => "javac " ++ filePath ++ " && java -cp " ++ dir ++ " " ++ main
         | Some i =>
             "javac " ++ filePath ++ " && java -cp " ++ dir ++ " " ++ main
             ++ " < " ++ i
         end
  else if String.eqb lang "python" then
    Some match inputFilePath with
         | None => "python3 " ++ filePath
         | Some i => "python3 " ++ filePath ++ " < " ++ i
         end
  else if String.eqb lang "javascript" then
    Some match inputFilePath with
         | None => "node " ++ filePath
         | Some i => "node " ++ filePath ++ " < " ++ i
         end
  else if String.eqb lang "c" then
    let cOutputFile := Path.join dir "program" in
    Some match inputFilePath with
         | None => "gcc " ++ filePath ++ " -o " ++ cOutputFile ++ " && " ++ cOutputFile
         | Some i =>
             "gcc " ++ filePath ++ " -o " ++ cOutputFile ++ " && " ++ cOutputFile
             ++ " < " ++ i
         end
  else if String.eqb lang "cpp" then
    let cppOutputFile := Path.join dir "program" in
    Some match inputFilePath with
         | None =>
             "g++ " ++ filePath ++ " -o " ++ cppOutputFile ++ " && " ++ cppOutputFile
         | Some i =>
             "g++ " ++ filePath ++ " -o " ++ cppOutputFile ++ " && " ++ cppOutputFile
             ++ " < " ++ i
         end
  else if String.eqb lang "csharp" then
    let csharpOutputFile := Path.join dir "Program.exe" in
    Some match inputFilePath with
         | None =>
             "mcs " ++ filePath ++ " -out:" ++ csharpOutputFile
             ++ " && mono " ++ csharpOutputFile
         | Some i =>
             "mcs " ++ filePath ++ " -out:" ++ csharpOutputFile
             ++ " && mono " ++ csharpOutputFile ++ " < " ++ i
         end
  else None.

(** [exec(command, { timeout: 300000 }, callback)]: a command that is no
    string makes [exec] throw before anything is spawned. *)
Definition exec (w : env) (command : option string) : M unit :=
  match command with
  | None => throw (exec_rejects w)
  | Some c => emit (Exec c 300000)
  end.

Definition send (status : Z) (rc : Z) (out err : string) : M unit :=
  emit (Send status {| responseCode := rc; output := out; errorMessage := err |}).

(** The callback given to [exec]. *)
Definition exec_callback (w : env) (dir : string) : M unit :=
  cleanup w dir ;;
  match exec_err w with
  | Some error =>
      if killed error then
        send 500 202 "Execution timed out after 30 seconds." ""
      else
        let isCompilationError := includes (exec_stderr w) "error" in
        send 500 202
          (let t := trim (exec_stderr w) in
           if is_empty t then message error else t)
          (if isCompilationError then "Compilation error occurred."
           else "Runtime error occurred.")
  | None => send 200 201 (trim (exec_stdout w)) ""
  end.

Record request : Type := {
  code : jsval;
  language : jsval;
  input : jsval
}.

(** The [try] block of the handler.  Its value tells whether [exec] was
    started, that is, whether the callback will run. *)
Definition try_block (w : env) (body : request)
    (lower fileName filePath : string) : M bool :=
  let dir := tempDir w in
  call (WriteFile filePath (code body)) (write_source_result w) ;;
  inputFilePath <-
    (if Js.truthy (input body)
     then p <- prepareInputFile w dir (input body) ;; ret (Some p)
     else ret None) ;;
  exec w (executionCommand lower dir fileName filePath inputFilePath) ;;
  ret true.

(** From the [try] statement to the end of the handler; the callback of
    [exec] runs later, outside the [try]. *)
Definition run_in_workspace (w : env) (body : request)
    (lower fileName filePath : string) : M unit :=
  let dir := tempDir w in
  started <-
    try_catch (try_block w body lower fileName filePath)
      (fun err =>
         cleanup w dir ;;
         send 500 202 (exn_message err) "Internal server error occurred." ;;
         ret false) ;;
  if started then exec_callback w dir else ret tt.

Definition too_large (body : request) : bool :=
  Js.gt (Js.length_of (code body)) 5000
  || (Js.truthy (input body) && Js.gt (Js.length_of (input body)) 1000).

(** [app.post("/run-program", async (req, res) => ...)] on [req.body].
    An exception that leaves this function is a rejection of the promise of
    the [async] handler: nothing in the handler catches it.  The value of
    [language.toLowerCase()] is taken once; the source repeats the call
    where it can no longer throw. *)
Definition run_program (w : env) (body : request) : M unit :=
  if negb (Js.truthy (code body)) || negb (Js.truthy (language body)) then
    send 400 203 "Code and language are required." "Code and language are required."
  else if too_large body then
    send 400 203 "Code or input is too large. Please limit their sizes." ""
  else
    let dir := tempDir w in
    call (Mkdir dir) (mkdir_result w) ;;
    lower <- toLowerCase (language body) ;;
    let fileExtension := fileExtensions_get lower in
    if negb (property_truthy fileExtension) then
      cleanup w dir ;;
      send 400 203 "Unsupported language." "Unsupported language."
    else
      let fileName := "Program." ++ property_shown fileExtension in
      let filePath := Path.join dir fileName in
      if String.eqb lower "java" then
        classNameMatch <- code_match (code body) ;;
        match classNameMatch with
        | Some id =>
            if negb (is_empty id) then
              let fileName := id ++ ".java" in
              let filePath := Path.join dir fileName in
              run_in_workspace w body lower fileName filePath
            else
              cleanup w dir ;;
              send 400 400 "Invalid Java code. Class name is missing." ""
        | None =>
            cleanup w dir ;;
            send 400 400 "Invalid Java code. Class name is missing." ""
        end
      else
        run_in_workspace w body lower fileName filePath.

End App.

(** ** The worker supervisor ([cluster.isMaster] branch) *)

Module Supervisor.

(** [live]: worker processes that are running; [pending]: workers that
    have exited and whose ["exit"] event has not yet been delivered to the
    listener; [forked]: calls of [cluster.fork()] so far. *)
Record state : Type := {
  live : nat;
  pending : nat;
  forked : nat
}.

Definition fork (s : state) : state :=
  {| live := S (live s); pending := pending s; forked := S (forked s) |}.

(** [for (let i = 0; i < numCPUs; i++) cluster.fork()], by the number of
    rounds still to run. *)
Fixpoint fork_loop (rounds : nat) (s : state) : state :=
  match rounds with
  | O => s
  | S k => fork_loop k (fork s)
  end.

Definition startup (numCPUs : nat) : state :=
  fork_loop numCPUs {| live := 0; pending := 0; forked := 0 |}.

(** The listener of [cluster.on("exit", ...)]: one unconditional fork. *)
Definition on_exit (s : state) : state :=
  fork {| live := live s; pending := pred (pending s); forked := forked s |}.

Inductive label : Type :=
| WorkerExits      (* a worker process ends, for whatever reason *)
| ExitDelivered.   (* the event loop calls the listener *)

Definition step (l : label) (s : state) : option state :=
  match l with
  | WorkerExits =>
      match live s with
      | O => None
      | S n => Some {| live := n; pending := S (pending s); forked := forked s |}
      end
  | ExitDelivered =>
      match pending s with
      | O => None
      | S _ => Some (on_exit s)
      end
  end.

Fixpoint run (ls : list label) (s : state) : option state :=
  match ls with
  | [] => Some s
  | l :: r =>
      match step l s with
      | Some s' => run r s'
      | None => None
      end
  end.

Definition is_delivery (l : label) : bool :=
  match l with ExitDelivered => true | WorkerExits => false end.

Definition deliveries (ls : list label) : nat :=
  List.length (filter is_delivery ls).

End Supervisor.

(** ** Observations on a trace *)

Definition is_rm (dir : string) (e : event) : bool :=
  match e with Rm d => String.eqb d dir | _ => false end.

Definition is_send (e : event) : bool :=
  match e with Send _ _ => true | _ => false end.

Definition is_exec (e : event) : bool :=
  match e with Exec _ _ => true | _ => false end.


(** How often the removal of [dir] is attempted. *)
Definition removals (dir : string) (t : list event) : nat :=
  List.length (filter (is_rm dir) t).

Fixpoint responses (t : list event) : list (Z * envelope) :=
  match t with
  | [] => []
  | Send st b :: r => (st, b) :: responses r
  | _ :: r => responses r
  end.

Fixpoint commands (t : list event) : list string :=
  match t with
  | [] => []
  | Exec c _ :: r => c :: commands r
  | _ :: r => commands r
  end.

Fixpoint files_written (t : list event) : list (string * jsval) :=
  match t with
  | [] => []
  | WriteFile p d :: r => (p, d) :: files_written r
  | _ :: r => files_written r
  end.

Definition spawned (t : list event) : bool := existsb is_exec t.

(** ** Notions used in the statements *)

Section Notions.
Import App.

Definition is_write (e : event) : bool :=
  match e with WriteFile _ _ => true | _ => false end.

Definition internal_error (err : exn) : event :=
  Send 500 {| responseCode := 202; output := exn_message err;
              errorMessage := "Internal server error occurred." |}.

(** The four answers that turn a request down before anything is run. *)
Definition required_fields : envelope :=
  {| responseCode := 203; output := "Code and language are required.";
     errorMessage := "Code and language are required." |}.

Definition size_limit : envelope :=
  {| responseCode := 203;
     output := "Code or input is too large. Please limit their sizes.";
     errorMessage := "" |}.

Definition unsupported_language : envelope :=
  {| responseCode := 203; output := "Unsupported language.";
     errorMessage := "Unsupported language." |}.

Definition class_name_missing : envelope :=
  {| responseCode := 400; output := "Invalid Java code. Class name is missing.";
     errorMessage := "" |}.

(** A request that passes the two checks made before the workspace is
    created. *)
Definition admitted (body : request) : Prop :=
  Js.truthy (code body) = true /\ Js.truthy (language body) = true /\
  too_large body = false.

Definition supported (lower : string) : Prop :=
  property_truthy (fileExtensions_get lower) = true.

(** Every way through the handler, by the tests it makes on the way. *)
Inductive handler_run (w : env) (body : request) : M unit -> Prop :=
| run_missing :
    Js.truthy (code body) = false \/ Js.truthy (language body) = false ->
    handler_run w body ([Send 400 required_fields], inr tt)
| run_too_large :
    Js.truthy (code body) = true -> Js.truthy (language body) = true ->
    too_large body = true ->
    handler_run w body ([Send 400 size_limit], inr tt)
| run_mkdir_rejected e :
    admitted body -> mkdir_result w = Some e ->
    handler_run w body ([Mkdir (tempDir w)], inl e)
| run_language_no_string :
    admitted body -> mkdir_result w = None ->
    (forall l, language body <> JStr l) ->
    handler_run w body
      ([Mkdir (tempDir w)],
       inl (TypeError "language.toLowerCase is not a function"))
| run_unsupported l :
    admitted body -> mkdir_result w = None ->
    language body = JStr l -> ~ supported (JsString.toLowerCase l) ->
    handler_run w body
      ([Mkdir (tempDir w); Rm (tempDir w); Send 400 unsupported_language], inr tt)
| run_code_no_string l :
    admitted body -> mkdir_result w = None ->
    language body = JStr l -> JsString.toLowerCase l = "java" ->
    (forall s, code body <> JStr s) ->
    handler_run w body
      ([Mkdir (tempDir w)], inl (TypeError "code.match is not a function"))
| run_no_class l s :
    admitted body -> mkdir_result w = None ->
    language body = JStr l -> JsString.toLowerCase l = "java" ->
    code body = JStr s -> ClassPattern.class_name s = None ->
    handler_run w body
      ([Mkdir (tempDir w); Rm (tempDir w); Send 400 class_name_missing], inr tt)
| run_java l s id :
    admitted body -> mkdir_result w = None ->
    language body = JStr l -> JsString.toLowerCase l = "java" ->
    code body = JStr s -> ClassPattern.class_name s = Some id ->
    handler_run w body
      (emit (Mkdir (tempDir w)) ;;
       run_in_workspace w body "java" (id ++ ".java")
         (Path.join (tempDir w) (id ++ ".java")))
| run_other l :
    admitted body -> mkdir_result w = None ->
    language body = JStr l -> supported (JsString.toLowerCase l) ->
    JsString.toLowerCase l <> "java" ->
    handler_run w body
      (emit (Mkdir (tempDir w)) ;;
       let fileName :=
         "Program." ++ property_shown (fileExtensions_get (JsString.toLowerCase l)) in
       run_in_workspace w body (JsString.toLowerCase l) fileName
         (Path.join (tempDir w) fileName)).

Definition timeout_answer : envelope :=
  {| responseCode := 202; output := "Execution timed out after 30 seconds.";
     errorMessage := "" |}.

Definition quiet (e : event) : bool := is_write e || is_exec e.

(** The four ways in which a request is turned down before execution. *)
Inductive rejection : Type :=
| MissingFields
| Oversized
| UnsupportedLanguage
| ClassNameMissing.

(** Which of them applies to a request, if any, by the tests of the
    handler in their order. *)
Definition rejected (body : request) : option rejection :=
  if negb (Js.truthy (code body)) || negb (Js.truthy (language body))
  then Some MissingFields
  else if too_large body then Some Oversized
  else
    match language body with
    | JStr l =>
        let lower := JsString.toLowerCase l in
        if negb (property_truthy (fileExtensions_get lower))
        then Some UnsupportedLanguage
        else if String.eqb lower "java" then
          match code body with
          | JStr s =>
              match ClassPattern.class_name s with
              | None => Some ClassNameMissing
              | Some _ => None
              end
          | _ => None
          end
        else None
    | _ => None
    end.



(** Turned down by the size check: the only event is the answer, so no
    workspace was created. *)
Definition size_rejected (w : env) (body : request) : Prop :=
  run_program w body = ([Send 400 size_limit], inr tt).

(** The limits as the specification words them: the characters of the
    code, and the characters of the input entries joined together. *)
Definition claimed_oversized (body : request) : Prop :=
  match code body, input body with
  | JStr c, JArr l =>
      (5000 < String.length c)%nat \/
      (1000 < String.length (Js.array_join newline l))%nat
  | JStr c, _ => (5000 < String.length c)%nat
  | _, _ => False
  end.

Definition input_path (w : env) : string := Path.join (tempDir w) "input.txt".

(** What is written next to the source file, by the shape of [input]. *)
Definition input_files (w : env) (body : request) : list (string * jsval) :=
  match input body with
  | JArr l => [(input_path w, JStr (Js.array_join newline l))]
  | _ => []
  end.

Definition not_an_array : envelope :=
  {| responseCode := 202; output := "Input should be an array of strings.";
     errorMessage := "Internal server error occurred." |}.

Definition option_list {A} (o : option A) : list A :=
  match o with Some a => [a] | None => [] end.

Definition paths_written (t : list event) : list string :=
  map fst (files_written t).



End Notions.

(** ** Sample requests and worlds *)

Module Sample.
Import App.

(** The message of the [TypeError] that [exec] throws when its command is
    [undefined]; the argument name stands between double quotes. *)
Definition command_type_error : string :=
  "The " ++ String (ascii_of_nat 34) "command" ++ String (ascii_of_nat 34)
    " argument must be of type string. Received undefined".

(** A world in which every call succeeds and the program prints [2]. *)
Definition world : env :=
  {| tempDir := "/app/temp/3f0c";
     mkdir_result := None;
     write_source_result := None;
     write_input_result := None;
     rm_result := None;
     exec_rejects := TypeError command_type_error;
     exec_err := None;
     exec_stdout := "2" ++ newline;
     exec_stderr := "" |}.

Definition failing (e : exec_error) (err : string) : env :=
  {| tempDir := tempDir world;
     mkdir_result := None;
     write_source_result := None;
     write_input_result := None;
     rm_result := None;
     exec_rejects := exec_rejects world;
     exec_err := Some e;
     exec_stdout := "";
     exec_stderr := err |}.

(** The world in which the child is killed when the timeout fires. *)
Definition timed_out : env :=
  failing
    {| killed := true;
       message := "Command failed: python3 /app/temp/3f0c/Program.py" |}
    "".

(** A world in which the program ends with a non-zero exit status. *)
Definition crashed (err : string) : env :=
  failing
    {| killed := false;
       message := "Command failed: python3 /app/temp/3f0c/Program.py" |}
    err.

Definition python (src : string) (input : jsval) : request :=
  {| code := JStr src; language := JStr "python"; input := input |}.

Definition java (src : string) (input : jsval) : request :=
  {| code := JStr src; language := JStr "Java"; input := input |}.

Definition loop : request := python "while True: pass" JUndefined.

Definition hello : string :=
  "class Hello { public static void main(String[] a){ System.out.println(1+1); } }".

Fixpoint copies {A} (n : nat) (x : A) : list A :=
  match n with
  | O => []
  | S k => x :: copies k x
  end.

End Sample.

(** ** Further notions *)

Section MoreNotions.
Import App.

(** The same world, but with another answer of [fs.rm]. *)
Definition with_rm_result (w : env) (r : option exn) : env :=
  {| tempDir := tempDir w;
     mkdir_result := mkdir_result w;
     write_source_result := write_source_result w;
     write_input_result := write_input_result w;
     rm_result := r;
     exec_rejects := exec_rejects w;
     exec_err := exec_err w;
     exec_stdout := exec_stdout w;
     exec_stderr := exec_stderr w |}.

Definition is_string (v : jsval) : bool :=
  match v with JStr _ => true | _ => false end.

(** A file name without a path separator. *)
Definition plain_name (name : string) : bool :=
  JsString.forallb (fun c => negb (Ascii.eqb c "/"%char)) name.

(** The keys of [fileExtensions]. *)
Definition languages : list string := map fst fileExtensions.

(** The path given to the command for redirection: the input file when
    [input] is an array, nothing when [input] is falsy. *)
Definition redirected (w : env) (body : request) : option string :=
  match input body with
  | JArr _ => Some (input_path w)
  | _ => None
  end.

(** [input] is absent (falsy) or an array: the two shapes with which
    [prepareInputFile] does not throw. *)
Definition input_usable (body : request) : Prop :=
  Js.truthy (input body) = false \/ Js.is_array (input body) = true.

(** How the source file is named, by the lower-cased language. *)
Definition named (body : request) (lower fileName : string) : Prop :=
  (lower = "java" /\
   exists s id, code body = JStr s /\ ClassPattern.class_name s = Some id /\
                fileName = id ++ ".java")
  \/
  (lower <> "java" /\ supported lower /\
   fileName = "Program." ++ property_shown (fileExtensions_get lower)).

Definition success_answer (w : env) : envelope :=
  {| responseCode := 201; output := JsString.trim (exec_stdout w);
     errorMessage := "" |}.

(** Worlds in which one write is rejected. *)
Definition source_rejecting (e : exn) : env :=
  {| tempDir := tempDir Sample.world;
     mkdir_result := None;
     write_source_result := Some e;
     write_input_result := None;
     rm_result := None;
     exec_rejects := exec_rejects Sample.world;
     exec_err := None;
     exec_stdout := "";
     exec_stderr := "" |}.

Definition input_rejecting (e : exn) : env :=
  {| tempDir := tempDir Sample.world;
     mkdir_result := None;
     write_source_result := None;
     write_input_result := Some e;
     rm_result := None;
     exec_rejects := exec_rejects Sample.world;
     exec_err := None;
     exec_stdout := "";
     exec_stderr := "" |}.

Definition disk_full : exn := Error "ENOSPC: no space left on device, write".




(** [t] is [s] without the white space at its two ends. *)
Definition trimmed_of (s t : string) : Prop :=
  (exists a b,
      s = a ++ t ++ b /\
      JsString.forallb JsString.is_space a = true /\
      JsString.forallb JsString.is_space b = true) /\
  (forall c r, t = String c r -> JsString.is_space c = false) /\
  (forall c r, JsString.rev t = String c r -> JsString.is_space c = false).

(** Every entry of an input array has its exact string form. *)
Definition entries_exact (l : list jsval) : Prop :=
  List.forallb Js.exact l = true.

(** A command that takes its standard input from [file]. *)
Definition reads_from (command file : string) : Prop :=
  exists base, command = base ++ " < " ++ file.

End MoreNotions.

(** * Properties *)

(** ** Strings *)

Section StringFacts.
Import JsString.

Lemma append_nil_r (s : string) : s ++ "" = s.
Proof. induction s as [|c s IH]; simpl; [reflexivity | now rewrite IH]. Qed.

Lemma append_assoc (a b c : string) : (a ++ b) ++ c = a ++ (b ++ c).
Proof. induction a as [|x a IH]; simpl; [reflexivity | now rewrite IH]. Qed.

Lemma length_append (a b : string) :
  String.length (a ++ b) = (String.length a + String.length b)%nat.
Proof. induction a as [|x a IH]; simpl; [reflexivity | now rewrite IH]. Qed.

Lemma append_inv_head (p a b : string) : p ++ a = p ++ b -> a = b.
Proof.
  induction p as [|x p IH]; simpl; intros H; [exact H|].
  injection H as H. now apply IH.
Qed.

Lemma append_inv_tail (a b t : string) : a ++ t = b ++ t -> a = b.
Proof.
  revert b; induction a as [|x a IH]; intros [|y b] H; simpl in H.
  - reflexivity.
  - apply (f_equal String.length) in H. simpl in H.
    rewrite length_append in H. lia.
  - apply (f_equal String.length) in H. simpl in H.
    rewrite length_append in H. lia.
  - injection H as -> H. f_equal. now apply IH.
Qed.

Lemma strip_prefix_spec (p s r : string) :
  strip_prefix p s = Some r <-> s = p ++ r.
Proof.
  revert s; induction p as [|a p IH]; intros s; simpl.
  - split; [now intros [= ->] | now intros ->].
  - destruct s as [|b s].
    + split; discriminate.
    + destruct (Ascii.eqb_spec a b) as [->|Hne].
      * rewrite IH. split; [now intros -> | now intros [= ->]].
      * split; [discriminate | intros [= E _]; now elim Hne].
Qed.

Lemma take_drop_while (p : ascii -> bool) (s : string) :
  take_while p s ++ drop_while p s = s.
Proof.
  induction s as [|c s IH]; simpl; [reflexivity|].
  destruct (p c); simpl; [now rewrite IH | reflexivity].
Qed.

Lemma forallb_take_while (p : ascii -> bool) (s : string) :
  forallb p (take_while p s) = true.
Proof.
  induction s as [|c s IH]; simpl; [reflexivity|].
  destruct (p c) eqn:E; simpl; [now rewrite E | reflexivity].
Qed.

Lemma drop_while_head (p : ascii -> bool) (s : string) c r :
  drop_while p s = String c r -> p c = false.
Proof.
  induction s as [|d s IH]; simpl; [discriminate|].
  destruct (p d) eqn:E; [exact IH | now intros [= <- _]].
Qed.

Lemma drop_while_all (p : ascii -> bool) (a b : string) :
  forallb p a = true -> drop_while p (a ++ b) = drop_while p b.
Proof.
  induction a as [|c a IH]; simpl; [reflexivity|].
  destruct (p c); simpl; [exact IH | discriminate].
Qed.

Lemma take_while_all (p : ascii -> bool) (a b : string) :
  forallb p a = true -> take_while p (a ++ b) = a ++ take_while p b.
Proof.
  induction a as [|c a IH]; simpl; [reflexivity|].
  destruct (p c); simpl; [intros H; now rewrite IH | discriminate].
Qed.

Lemma drop_while_empty (p : ascii -> bool) (s : string) :
  drop_while p s = "" -> forallb p s = true.
Proof.
  induction s as [|c s IH]; simpl; [reflexivity|].
  destruct (p c); [exact IH | discriminate].
Qed.

Lemma id_start_not_space (c : ascii) : is_id_start c = true -> is_space c = false.
Proof.
  destruct c as [[] [] [] [] [] [] [] []]; vm_compute; congruence.
Qed.

End StringFacts.

(** ** The class-name pattern finds the leftmost occurrence *)

Section ClassPatternFacts.
Import JsString ClassPattern.

Lemma is_empty_true (s : string) : is_empty s = true <-> s = "".
Proof. destruct s; simpl; split; congruence. Qed.

Lemma is_empty_false (s : string) : is_empty s = false <-> s <> "".
Proof. destruct s; simpl; split; congruence. Qed.

(** A match found at the front is an occurrence with empty prefix, and its
    identifier cannot be extended. *)
Lemma match_here_occurs (s id : string) :
  match_here s = Some id ->
  exists ws rest,
    occurs s "" ws id rest /\
    (forall c r, rest = String c r -> is_id_part c = false).
Proof.
  unfold match_here.
  destruct (strip_prefix "class" s) as [r|] eqn:E; [|discriminate].
  apply strip_prefix_spec in E.
  destruct (is_empty (take_while is_space r)) eqn:Ews; [discriminate|].
  destruct (drop_while is_space r) as [|c r'] eqn:Ed; [discriminate|].
  destruct (is_id_start c) eqn:Ec; [|discriminate].
  intros [= <-].
  exists (take_while is_space r), (drop_while is_id_part r').
  split.
  - repeat split.
    + rewrite E. change ("" ++ "class" ++ ?x) with ("class" ++ x).
      f_equal. simpl. rewrite take_drop_while.
      rewrite <- Ed. now rewrite take_drop_while.
    + now apply is_empty_false.
    + apply forallb_take_while.
    + exists c, (take_while is_id_part r'). repeat split; [exact Ec|].
      apply forallb_take_while.
  - intros d r0 Hr. eapply drop_while_head; exact Hr.
Qed.

(** Wherever the pattern can match at the front, [match_here] does. *)
Lemma occurs_match_here (s ws id rest : string) :
  occurs s "" ws id rest -> match_here s <> None.
Proof.
  intros (Hs & Hws & Hsp & (c & r & -> & Hc & _)).
  simpl in Hs. unfold match_here.
  assert (E : strip_prefix "class" s = Some (ws ++ String c r ++ rest))
    by (apply strip_prefix_spec; exact Hs).
  rewrite E.
  rewrite (take_while_all _ _ _ Hsp), (drop_while_all _ _ _ Hsp).
  destruct ws as [|x ws]; [congruence|]. simpl is_empty. cbv iota.
  simpl. rewrite (id_start_not_space _ Hc), Hc. discriminate.
Qed.

Lemma occurs_tail (a : ascii) (s pre ws id rest : string) :
  occurs (String a s) (String a pre) ws id rest <-> occurs s pre ws id rest.
Proof.
  unfold occurs; simpl; split; intros (H & R); split; try exact R.
  - now injection H.
  - now rewrite H.
Qed.

Lemma occurs_prefix_head (a : ascii) (s pre ws id rest : string) :
  occurs (String a s) pre ws id rest ->
  pre = "" \/ exists pre', pre = String a pre' /\ occurs s pre' ws id rest.
Proof.
  destruct pre as [|b pre]; [now left|]. intros H. right.
  assert (b = a) as -> by (destruct H as (H & _); simpl in H; congruence).
  exists pre. split; [reflexivity|]. exact (proj1 (occurs_tail _ _ _ _ _ _) H).
Qed.

Lemma class_name_sound (s id : string) :
  class_name s = Some id ->
  exists pre ws rest,
    occurs s pre ws id rest /\
    (forall c r, rest = String c r -> is_id_part c = false) /\
    (forall pre' ws' id' rest',
        occurs s pre' ws' id' rest' -> String.length pre <= String.length pre').
Proof.
  induction s as [|a s IH].
  - discriminate.
  - simpl class_name. destruct (match_here (String a s)) as [i|] eqn:E.
    + intros [= ->]. destruct (match_here_occurs _ _ E) as (ws & rest & Ho & Hm).
      exists "", ws, rest.
      split; [exact Ho | split; [exact Hm | intros; simpl; lia]].
    + intros H. destruct (IH H) as (pre & ws & rest & Ho & Hm & Hl).
      exists (String a pre), ws, rest. split; [|split; [exact Hm|]].
      * now apply occurs_tail.
      * intros pre' ws' id' rest' Ho'.
        destruct (occurs_prefix_head _ _ _ _ _ _ Ho') as [-> | (p & -> & Hp)].
        -- exfalso. now apply (occurs_match_here _ _ _ _ Ho').
        -- simpl. apply le_n_S. eapply Hl; exact Hp.
Qed.


(** The captured name is never empty, so the test [classNameMatch[1]] of the
    handler never fails after a match. *)
Lemma class_name_not_empty (s id : string) :
  class_name s = Some id -> is_empty id = false.
Proof.
  intros H. destruct (class_name_sound _ _ H) as (pre & ws & rest & Ho & _).
  destruct Ho as (_ & _ & _ & (c & r & E & _)). now rewrite E.
Qed.

End ClassPatternFacts.

(** ** The shape of every run of the handler *)

Section HandlerShape.
Import App.

Lemma cleanup_run (w : env) (dir : string) : cleanup w dir = ([Rm dir], inr tt).
Proof. unfold cleanup, call. destruct (rm_result w); reflexivity. Qed.

(** The callback removes the workspace and then answers, in that order. *)
Lemma exec_callback_run (w : env) (dir : string) :
  exists st b, exec_callback w dir = ([Rm dir; Send st b], inr tt).
Proof.
  unfold exec_callback. rewrite cleanup_run.
  destruct (exec_err w) as [e|]; [destruct (killed e)|];
    simpl; eexists; eexists; reflexivity.
Qed.

(** Once the [try] statement is reached, the handler ends in one of two
    ways: [exec] was started and its callback ran, or the [catch] block
    ran.  Before that only files were written. *)
Lemma run_in_workspace_cases (w : env) (body : request)
    (lower fileName filePath : string) :
  let dir := tempDir w in
  exists writes,
    forallb is_write writes = true /\
    ((exists cmd ip,
         map fst (files_written writes) = match ip with Some p => [p] | None => [] end /\
         executionCommand lower dir fileName filePath ip = Some cmd /\
         run_in_workspace w body lower fileName filePath =
           (((WriteFile filePath (code body) :: writes)
               ++ Exec cmd 300000 :: trace (exec_callback w dir))%list, inr tt))
     \/
     (exists err,
         run_in_workspace w body lower fileName filePath =
           (((WriteFile filePath (code body) :: writes)
               ++ [Rm dir; internal_error err])%list, inr tt))).
Proof.
  intros dir.
  destruct (exec_callback_run w dir) as (st & b & Hcb).
  unfold run_in_workspace, try_block, prepareInputFile, call, exec.
  fold dir. rewrite Hcb, cleanup_run.
  destruct (write_source_result w) as [e|].
  { exists []. split; [reflexivity|]. right. exists e. reflexivity. }
  destruct (Js.truthy (input body)).
  - destruct (input body) as [| |b0|n|s|l];
      try (exists []; split; [reflexivity|]; right; eexists; reflexivity).
    set (iw := WriteFile (Path.join dir "input.txt") (JStr (Js.array_join newline l))).
    destruct (write_input_result w) as [e|].
    { exists [iw]. split; [reflexivity|]. right. exists e. reflexivity. }
    destruct (executionCommand lower dir fileName filePath
                (Some (Path.join dir "input.txt"))) as [c|] eqn:Ec.
    + exists [iw]. split; [reflexivity|]. left. exists c, (Some (Path.join dir "input.txt")).
      split; [reflexivity|]. split; [exact Ec|]. simpl. rewrite Ec. reflexivity.
    + exists [iw]. split; [reflexivity|]. right. exists (exec_rejects w).
      simpl. rewrite Ec. reflexivity.
  - destruct (executionCommand lower dir fileName filePath None) as [c|] eqn:Ec.
    + exists []. split; [reflexivity|]. left. exists c, None.
      split; [reflexivity|]. split; [exact Ec|]. simpl. rewrite Ec. reflexivity.
    + exists []. split; [reflexivity|]. right. exists (exec_rejects w).
      simpl. rewrite Ec. reflexivity.
Qed.

Lemma bind_emit {A} (ev : event) (m : M A) :
  (emit ev ;; m) = (ev :: trace m, outcome m).
Proof. destruct m as [t r]. reflexivity. Qed.

Lemma not_a_string (v : jsval) :
  match v with JStr _ => False | _ => True end -> forall s, v <> JStr s.
Proof. destruct v; simpl; intros H s0 E; try discriminate; exact H. Qed.

Theorem run_program_run (w : env) (body : request) :
  handler_run w body (run_program w body).
Proof.
  unfold run_program.
  destruct (Js.truthy (code body)) eqn:Hc; simpl.
  2: { apply run_missing. now left. }
  destruct (Js.truthy (language body)) eqn:Hl; simpl.
  2: { apply run_missing. now right. }
  destruct (too_large body) eqn:Hs.
  { now apply run_too_large. }
  assert (Ha : admitted body) by (repeat split; assumption).
  unfold call. destruct (mkdir_result w) as [e|] eqn:Hm.
  { simpl. now apply run_mkdir_rejected. }
  destruct (language body) as [| |b0|n|l|a] eqn:El;
    try (simpl; apply run_language_no_string; try assumption;
         rewrite El; now apply not_a_string).
  unfold toLowerCase.
  set (lower := JsString.toLowerCase l).
  destruct (property_truthy (fileExtensions_get lower)) eqn:Hx.
  2: { simpl. rewrite Hx, cleanup_run. simpl.
       apply run_unsupported with (l := l); try assumption.
       unfold supported. fold lower. now rewrite Hx. }
  destruct (String.eqb_spec lower "java") as [Hj|Hj].
  - destruct (code body) as [| |b0|n|s|a] eqn:Ec;
      try (simpl; rewrite Hx, Hj; simpl;
           apply run_code_no_string with (l := l); try assumption;
           rewrite Ec; now apply not_a_string).
    destruct (ClassPattern.class_name s) as [id|] eqn:Hn.
    + pose proof (class_name_not_empty _ _ Hn) as Hne.
      replace (emit (Mkdir (tempDir w));; ret tt) with (emit (Mkdir (tempDir w)))
        by reflexivity.
      simpl bind at 2. simpl. rewrite Hx. simpl. rewrite Hj. simpl.
      rewrite Hn, Hne. simpl.
      pose proof (run_java w body l s id Ha Hm El Hj Ec Hn) as R.
      rewrite bind_emit in R.
      destruct (run_in_workspace w body "java" _ _) as [t r]. exact R.
    + simpl. rewrite Hx, Hj. simpl. rewrite Hn, cleanup_run. simpl.
      now apply run_no_class with (l := l) (s := s).
  - simpl. rewrite Hx. apply String.eqb_neq in Hj. rewrite Hj.
    apply String.eqb_neq in Hj.
    pose proof (run_other w body l Ha Hm El Hx Hj) as R.
    rewrite bind_emit in R. fold lower in R. simpl in R.
    destruct (run_in_workspace w body lower _ _) as [t r]. exact R.
Qed.

End HandlerShape.

(** Case analysis on the run inside the workspace that the goal mentions:
    [exec] was started, or the [catch] block ran. *)
Ltac in_workspace :=
  rewrite bind_emit; cbv zeta;
  match goal with
  | |- context [App.run_in_workspace ?w ?body ?lo ?fn ?fp] =>
      let ws := fresh "ws" in
      let Hws := fresh "Hws" in
      let cmd := fresh "cmd" in
      let ip := fresh "ip" in
      let Hp := fresh "Hp" in
      let Hc := fresh "Hc" in
      let err := fresh "err" in
      destruct (run_in_workspace_cases w body lo fn fp)
        as (ws & Hws & [(cmd & ip & Hp & Hc & ->) | (err & ->)])
  end.

(** ** Traces made of file writes *)

Section TraceFacts.
Import App.

Lemma responses_app (a b : list event) :
  responses (a ++ b) = (responses a ++ responses b)%list.
Proof.
  induction a as [|e a IH]; simpl; [reflexivity|].
  destruct e; simpl; now rewrite IH.
Qed.

Lemma commands_app (a b : list event) :
  commands (a ++ b) = (commands a ++ commands b)%list.
Proof.
  induction a as [|e a IH]; simpl; [reflexivity|].
  destruct e; simpl; now rewrite IH.
Qed.

Lemma files_written_app (a b : list event) :
  files_written (a ++ b) = (files_written a ++ files_written b)%list.
Proof.
  induction a as [|e a IH]; simpl; [reflexivity|].
  destruct e; simpl; now rewrite IH.
Qed.

Lemma removals_app (dir : string) (a b : list event) :
  removals dir (a ++ b) = (removals dir a + removals dir b)%nat.
Proof. unfold removals. now rewrite filter_app, length_app. Qed.


Lemma writes_silent (t : list event) :
  forallb is_write t = true ->
  responses t = [] /\ commands t = [] /\ spawned t = false /\
  forall dir, removals dir t = 0%nat.
Proof.
  induction t as [|e t IH]; simpl; [now repeat split|].
  destruct e; simpl; try discriminate. intros H.
  destruct (IH H) as (R & C & S & HRm). now repeat split.
Qed.

(** A run that started [exec]: everything before it is silent, and the
    callback follows. *)
Lemma spawned_run (w : env) (body : request) :
  spawned (trace (run_program w body)) = true ->
  exists pre cmd,
    run_program w body =
      ((pre ++ Exec cmd 300000 :: trace (exec_callback w (tempDir w)))%list, inr tt) /\
    responses pre = [] /\ commands pre = [] /\
    removals (tempDir w) pre = 0%nat.
Proof.
  destruct (run_program_run w body); try (simpl; discriminate);
    in_workspace; destruct (writes_silent _ Hws) as (R & C & S & HRm); simpl.
  1, 3: intros _;
    eexists (Mkdir (tempDir w) :: WriteFile _ (code body) :: ws), cmd;
    (split; [reflexivity|]); simpl; rewrite R, C; repeat split; apply HRm.
  all: unfold spawned; simpl; rewrite existsb_app; fold (spawned ws);
    rewrite S; simpl; discriminate.
Qed.

End TraceFacts.

(** ** Trimming *)

Section TrimFacts.
Import JsString.

Lemma rev_onto_empty (s acc : string) : rev_onto s acc = "" -> s = "" /\ acc = "".
Proof.
  revert acc; induction s as [|c s IH]; simpl; intros acc H; [now split|].
  destruct (IH _ H) as (_ & E). discriminate.
Qed.

Lemma forallb_rev_onto (p : ascii -> bool) (s acc : string) :
  forallb p (rev_onto s acc) = forallb p s && forallb p acc.
Proof.
  revert acc; induction s as [|c s IH]; simpl; intros acc; [reflexivity|].
  rewrite IH. simpl. destruct (p c), (forallb p s); reflexivity.
Qed.

Lemma trim_empty (s : string) :
  is_empty (trim s) = true -> forallb is_space s = true.
Proof.
  unfold trim, rev. intros H. apply is_empty_true in H.
  apply rev_onto_empty in H as (H & _).
  apply drop_while_empty in H. rewrite forallb_rev_onto in H.
  apply andb_prop in H as (H & _).
  destruct (drop_while is_space s) as [|c r] eqn:E.
  - now apply drop_while_empty.
  - simpl in H. rewrite (drop_while_head _ _ _ _ E) in H. discriminate.
Qed.

Lemma includes_error_not_blank (s : string) :
  includes s "error" = true -> forallb is_space s = false.
Proof.
  induction s as [|c s IH]; [discriminate|].
  simpl includes. intros H. apply orb_prop in H as [H|H].
  - unfold starts_with in H.
    destruct (strip_prefix "error" (String c s)) as [r|] eqn:E; [|discriminate].
    apply strip_prefix_spec in E. injection E as -> _. reflexivity.
  - simpl. rewrite (IH H). apply andb_false_r.
Qed.

(** Standard error that names an ["error"] is not blank after trimming. *)
Lemma includes_error_trim (s : string) :
  includes s "error" = true -> is_empty (trim s) = false.
Proof.
  intros H. destruct (is_empty (trim s)) eqn:E; [|reflexivity].
  apply trim_empty in E. rewrite (includes_error_not_blank _ H) in E.
  discriminate.
Qed.

End TrimFacts.

(** ** Claims about the answer after execution *)

Section Outcome.
Import App.

(** C2, as amended.  Whenever the handler started [exec] and the callback
    reports a killed child, the single answer has status 500 and carries
    responseCode 202, the text "Execution timed out after 30 seconds." in
    its output field, and an empty errorMessage field. *)
Theorem timeout_response (w : env) (body : request) (e : exec_error) :
  spawned (trace (run_program w body)) = true ->
  exec_err w = Some e -> killed e = true ->
  responses (trace (run_program w body)) = [(500%Z, timeout_answer)].
Proof.
  intros Hs He Hk.
  destruct (spawned_run w body Hs) as (pre & cmd & -> & R & _ & _).
  simpl trace. rewrite responses_app, R. simpl.
  unfold exec_callback. rewrite cleanup_run, He, Hk. reflexivity.
Qed.

Lemma timeout_response_witness :
  spawned (trace (run_program Sample.timed_out Sample.loop)) = true /\
  responses (trace (run_program Sample.timed_out Sample.loop))
  = [(500%Z, timeout_answer)].
Proof.
  split; [reflexivity|].
  apply (timeout_response Sample.timed_out Sample.loop
           {| killed := true;
              message := "Command failed: python3 /app/temp/3f0c/Program.py" |});
    reflexivity.
Defined.

(** C2 as it was stated fails: a timed-out request gets a non-empty output
    field and an empty errorMessage field. *)
Lemma timeout_response_counterexample :
  exists st b,
    commands (trace (run_program Sample.timed_out Sample.loop))
    = ["python3 /app/temp/3f0c/Program.py"] /\
    responses (trace (run_program Sample.timed_out Sample.loop)) = [(st, b)] /\
    responseCode b = 202%Z /\
    output b <> "" /\
    errorMessage b <> "Execution timed out after the configured duration.".
Proof.
  eexists; eexists. split; [reflexivity|]. split; [reflexivity|].
  simpl. repeat split; discriminate.
Qed.

End Outcome.

(** ** Claims about the workspace *)

Section Workspace.
Import App.

Lemma removals_quiet (dir : string) (t : list event) :
  forallb quiet t = true -> removals dir t = 0%nat /\ responses t = [].
Proof.
  induction t as [|e t IH]; simpl; [now split|].
  destruct e; simpl; try discriminate; exact IH.
Qed.

Lemma quiet_writes (t : list event) :
  forallb is_write t = true -> forallb quiet t = true.
Proof.
  induction t as [|e t IH]; simpl; [reflexivity|].
  destruct e; simpl; try discriminate; exact IH.
Qed.

(** When [code] and [language] are strings, every path that follows the
    creation of the workspace ends with one removal of the directory and
    then one answer; nothing before them removes or answers. *)
Lemma cleanup_once_before_response (w : env) (body : request) (c l : string) :
  code body = JStr c -> language body = JStr l ->
  admitted body -> mkdir_result w = None ->
  exists mid st b,
    run_program w body =
      ((Mkdir (tempDir w) :: mid ++ [Rm (tempDir w); Send st b])%list, inr tt) /\
    forallb quiet mid = true.
Proof.
  intros Ec El (Hc & Hl & Hs) Hm.
  destruct (run_program_run w body) as
    [ [H|H] | H1 H2 H3 | e _ H | _ _ H | l' _ _ _ _ | l' _ _ _ _ H
    | l' s _ _ _ _ _ _ | l' s id _ _ _ _ _ _ | l' _ _ _ _ _ ];
    try congruence.
  1: { exists [], 400%Z, unsupported_language. now split. }
  1: { exists [], 400%Z, class_name_missing. now split. }
  all: destruct (exec_callback_run w (tempDir w)) as (st & b & Hcb);
    in_workspace; rewrite ?Hcb; simpl.
  1, 3: eexists (WriteFile _ (code body) :: ws ++ [Exec cmd 300000])%list, st, b;
    split;
    [ simpl; rewrite <- app_assoc; reflexivity
    | simpl; rewrite forallb_app, (quiet_writes _ Hws); reflexivity ].
  all: eexists (WriteFile _ (code body) :: ws), 500%Z, _;
    split; [reflexivity|]; simpl; now apply quiet_writes.
Qed.

(** X18.  For string [code] and [language], on every path that follows
    the creation of the workspace the removal is attempted exactly once and
    the answer is sent exactly once. *)
Lemma one_removal_one_response (w : env) (body : request) (c l : string) :
  code body = JStr c -> language body = JStr l ->
  admitted body -> mkdir_result w = None ->
  removals (tempDir w) (trace (run_program w body)) = 1%nat /\
  List.length (responses (trace (run_program w body))) = 1%nat.
Proof.
  intros Ec El Ha Hm.
  destruct (cleanup_once_before_response w body c l Ec El Ha Hm)
    as (mid & st & b & -> & Hq).
  destruct (removals_quiet (tempDir w) _ Hq) as (R0 & S0).
  simpl trace. split.
  - change (Mkdir (tempDir w) :: mid ++ [Rm (tempDir w); Send st b])%list
      with ([Mkdir (tempDir w)] ++ mid ++ [Rm (tempDir w); Send st b])%list.
    rewrite !removals_app, R0. unfold removals. simpl.
    now rewrite String.eqb_refl.
  - simpl. rewrite responses_app, S0. reflexivity.
Qed.

(** C1, at the failing request.  A request whose [language] is a number
    other than zero passes both early checks; the workspace is created,
    [language.toLowerCase()] throws outside the [try] statement, and the
    handler ends there with the exception: it attempts no removal of the
    directory and sends no answer. *)
Theorem workspace_left_behind (w : env) (c : string) (n : Z) (i : jsval) :
  let body := {| code := JStr c; language := JNum n; input := i |} in
  admitted body -> mkdir_result w = None ->
  run_program w body =
    ([Mkdir (tempDir w)], inl (TypeError "language.toLowerCase is not a function")) /\
  removals (tempDir w) (trace (run_program w body)) = 0%nat /\
  responses (trace (run_program w body)) = [].
Proof.
  intros body (Hc & Hl & Hs) Hm.
  assert (E : run_program w body =
    ([Mkdir (tempDir w)], inl (TypeError "language.toLowerCase is not a function"))).
  { unfold run_program, call. rewrite Hc, Hl, Hs, Hm. reflexivity. }
  rewrite E. now repeat split.
Qed.

Lemma workspace_left_behind_witness :
  let body := {| code := JStr "print(1)"; language := JNum 5; input := JUndefined |} in
  admitted body /\
  run_program Sample.world body =
    ([Mkdir "/app/temp/3f0c"],
     inl (TypeError "language.toLowerCase is not a function")) /\
  removals "/app/temp/3f0c" (trace (run_program Sample.world body)) = 0%nat /\
  responses (trace (run_program Sample.world body)) = [].
Proof.
  intros body.
  assert (Ha : admitted body) by (repeat split; reflexivity).
  split; [exact Ha|].
  exact (workspace_left_behind Sample.world "print(1)" 5 JUndefined Ha eq_refl).
Defined.

(** The same happens to a java request whose [code] is truthy and no
    string: [code.match] is called before the [try] statement too. *)
Lemma workspace_left_behind_java (w : env) (n : Z) (i : jsval) :
  let body := {| code := JNum n; language := JStr "java"; input := i |} in
  admitted body -> mkdir_result w = None ->
  run_program w body =
    ([Mkdir (tempDir w)], inl (TypeError "code.match is not a function")).
Proof.
  intros body (Hc & Hl & Hs) Hm.
  unfold run_program, call. rewrite Hc, Hl, Hs, Hm. reflexivity.
Qed.

End Workspace.

(** ** Claims about the checks made before anything is run *)

Section Validation.
Import App.


End Validation.

(** ** The size check *)

Section SizeCheck.
Import App.

Lemma too_large_spec (body : request) :
  too_large body = true <->
  (exists n, Js.length_of (code body) = Some n /\ (5000 < n)%Z) \/
  (Js.truthy (input body) = true /\
   exists n, Js.length_of (input body) = Some n /\ (1000 < n)%Z).
Proof.
  unfold too_large, Js.gt. split.
  - intros H. apply orb_prop in H as [H|H].
    + left. destruct (Js.length_of (code body)) as [n|]; [|discriminate].
      exists n. split; [reflexivity | now apply Z.ltb_lt].
    + right. apply andb_prop in H as (Ht & H). split; [exact Ht|].
      destruct (Js.length_of (input body)) as [n|]; [|discriminate].
      exists n. split; [reflexivity | now apply Z.ltb_lt].
  - intros [(n & -> & H) | (Ht & n & -> & H)].
    + apply Z.ltb_lt in H. now rewrite H.
    + apply Z.ltb_lt in H. rewrite Ht, H. apply orb_true_r.
Qed.

(** C4, as amended.  A request that has [code] and [language] is turned
    down by the size check, with no workspace created, exactly when the
    length of [code] exceeds 5000 or [input] is truthy and its [length]
    exceeds 1000; the length of an array is the number of its entries. *)
Theorem size_check (w : env) (body : request) :
  Js.truthy (code body) = true -> Js.truthy (language body) = true ->
  (size_rejected w body <->
   (exists n, Js.length_of (code body) = Some n /\ (5000 < n)%Z) \/
   (Js.truthy (input body) = true /\
    exists n, Js.length_of (input body) = Some n /\ (1000 < n)%Z)).
Proof.
  intros Hc Hl. rewrite <- too_large_spec. unfold size_rejected. split.
  - intros E. destruct (too_large body) eqn:Hs; [reflexivity|]. exfalso.
    destruct (run_program_run w body) as
      [ [H|H] | | | | | | | | ]; try congruence; try discriminate.
    + rewrite bind_emit in E. discriminate.
    + rewrite bind_emit in E. discriminate.
  - intros Hs. unfold run_program. now rewrite Hc, Hl, Hs.
Qed.

Lemma size_check_witness :
  let body := Sample.python "print(1)" (JArr (Sample.copies 1001 (JStr "x"))) in
  Js.truthy (code body) = true /\ Js.truthy (language body) = true /\
  size_rejected Sample.world body.
Proof.
  intros body. split; [reflexivity|]. split; [reflexivity|].
  apply (size_check Sample.world body eq_refl eq_refl).
  right. split; [reflexivity|]. exists 1001%Z. split; [reflexivity | lia].
Defined.

(** C4 as it was stated fails in both directions: one entry of 1001
    characters is not turned down, and 1001 empty entries, which join to
    1000 characters, are. *)
Lemma size_check_counterexample :
  let long := string_of_list_ascii (Sample.copies 1001 "a"%char) in
  let one_long_entry := Sample.python "print(1)" (JArr [JStr long]) in
  let many_empty_entries :=
    Sample.python "print(1)" (JArr (Sample.copies 1001 (JStr ""))) in
  (claimed_oversized one_long_entry /\ ~ size_rejected Sample.world one_long_entry) /\
  (~ claimed_oversized many_empty_entries /\
   size_rejected Sample.world many_empty_entries).
Proof.
  intros long one_long_entry many_empty_entries. split; split.
  - right. vm_compute. repeat constructor.
  - unfold size_rejected. vm_compute. discriminate.
  - intros [H|H]; vm_compute in H; lia.
  - vm_compute. reflexivity.
Qed.

End SizeCheck.

(** ** The input file *)

Section InputFile.
Import App.

Lemma files_written_callback (w : env) (dir : string) :
  files_written (trace (exec_callback w dir)) = [].
Proof. destruct (exec_callback_run w dir) as (st & b & ->). reflexivity. Qed.

Lemma run_in_workspace_files (w : env) (body : request)
    (lower fileName filePath : string) :
  write_source_result w = None -> write_input_result w = None ->
  files_written (trace (run_in_workspace w body lower fileName filePath))
  = (filePath, code body) :: input_files w body.
Proof.
  intros Hs Hi.
  pose proof (files_written_callback w (tempDir w)) as Hcb.
  destruct (exec_callback w (tempDir w)) as [tcb rcb] eqn:Ecb. simpl in Hcb.
  unfold run_in_workspace, try_block, prepareInputFile, call, exec, input_files,
    input_path.
  rewrite Hs, Ecb, cleanup_run.
  destruct (input body) as [| |[]|n|s|l]; simpl;
    try (destruct (executionCommand lower (tempDir w) fileName filePath None);
         simpl; now rewrite ?Hcb).
  - destruct (negb (n =? 0)%Z); simpl; [reflexivity|].
    destruct (executionCommand lower (tempDir w) fileName filePath None);
      simpl; now rewrite ?Hcb.
  - destruct (negb (JsString.is_empty s)); simpl; [reflexivity|].
    destruct (executionCommand lower (tempDir w) fileName filePath None);
      simpl; now rewrite ?Hcb.
  - rewrite Hi. simpl.
    destruct (executionCommand lower (tempDir w) fileName filePath
                (Some (Path.join (tempDir w) "input.txt")));
      simpl; now rewrite ?Hcb.
Qed.

(** C6 as it was stated fails: an empty input array does produce an input
    file, an empty one. *)
Lemma input_file_counterexample :
  let body := Sample.python "print(1+1)" (JArr []) in
  files_written (trace (run_program Sample.world body))
  = [("/app/temp/3f0c/Program.py", JStr "print(1+1)");
     ("/app/temp/3f0c/input.txt", JStr "")] /\
  commands (trace (run_program Sample.world body))
  = ["python3 /app/temp/3f0c/Program.py < /app/temp/3f0c/input.txt"].
Proof. split; reflexivity. Qed.

(** The [try] block when [input] is truthy and no array. *)
Lemma run_in_workspace_no_array (w : env) (body : request)
    (lower fileName filePath : string) :
  write_source_result w = None ->
  Js.truthy (input body) = true -> Js.is_array (input body) = false ->
  run_in_workspace w body lower fileName filePath
  = ([WriteFile filePath (code body); Rm (tempDir w); Send 500 not_an_array],
     inr tt).
Proof.
  intros Hs Ht Ha.
  unfold run_in_workspace, try_block, prepareInputFile, call.
  rewrite Hs, Ht, cleanup_run.
  destruct (input body); try discriminate; reflexivity.
Qed.

(** C10, as amended.  For a request with string [code] and [language] that
    passes the early checks, names a supported language (for java, with a
    class name in the code), and whose source file is written: when [input]
    is truthy and not an array, the workspace is removed and the answer is
    status 500 with responseCode 202, output "Input should be an array of
    strings." and errorMessage "Internal server error occurred.", and
    nothing is spawned. *)
Theorem input_no_array_response (w : env) (body : request) (c l : string) :
  code body = JStr c -> language body = JStr l ->
  admitted body -> mkdir_result w = None ->
  rejected body = None ->
  write_source_result w = None ->
  Js.truthy (input body) = true -> Js.is_array (input body) = false ->
  exists filePath,
    run_program w body
    = ([Mkdir (tempDir w); WriteFile filePath (JStr c); Rm (tempDir w);
        Send 500 not_an_array], inr tt).
Proof.
  intros Ec El Ha Hm Hr Hs Ht Hn.
  assert (Hrej : forall k, rejected body = Some k -> False) by congruence.
  destruct Ha as (Hc & Hl & Hsz).
  destruct (run_program_run w body) as
    [ [H|H] | | | | l' _ _ El' Hu | | l' s _ _ El' Hj Ec' Hcn | | ];
    try congruence.
  - exfalso. apply (Hrej UnsupportedLanguage). unfold rejected.
    rewrite Hc, Hl, Hsz, El'. simpl.
    unfold supported in Hu. apply not_true_is_false in Hu. now rewrite Hu.
  - exfalso. apply (Hrej ClassNameMissing). unfold rejected.
    rewrite Hc, Hl, Hsz, El'. simpl.
    destruct (property_truthy (fileExtensions_get (JsString.toLowerCase l')))
      eqn:Hx.
    + simpl. now rewrite Hj, Ec', Hcn.
    + rewrite Hj in Hx. discriminate.
  - rewrite bind_emit, (run_in_workspace_no_array _ _ _ _ _ Hs Ht Hn), Ec.
    eexists. reflexivity.
  - rewrite bind_emit. cbv zeta.
    rewrite (run_in_workspace_no_array _ _ _ _ _ Hs Ht Hn), Ec.
    eexists. reflexivity.
Qed.

Lemma input_no_array_response_witness :
  let body := Sample.python "print(input())" (JStr "4") in
  admitted body /\ rejected body = None /\
  Js.truthy (input body) = true /\ Js.is_array (input body) = false /\
  exists filePath,
    run_program Sample.world body
    = ([Mkdir "/app/temp/3f0c"; WriteFile filePath (JStr "print(input())");
        Rm "/app/temp/3f0c"; Send 500 not_an_array], inr tt).
Proof.
  intros body.
  assert (Ha : admitted body) by (repeat split; reflexivity).
  repeat (split; [first [exact Ha | reflexivity]|]).
  exact (input_no_array_response Sample.world body _ _ eq_refl eq_refl Ha
           eq_refl eq_refl eq_refl eq_refl eq_refl).
Defined.

(** C10 as it was stated fails: an empty string is a supplied input that
    is no array and passes the size check, and the request runs as if no
    input were given and is answered with responseCode 201. *)
Lemma input_no_array_counterexample :
  let body := Sample.python "print(1+1)" (JStr "") in
  input body <> JUndefined /\ Js.is_array (input body) = false /\
  too_large body = false /\
  run_program Sample.world body
  = ([Mkdir "/app/temp/3f0c";
      WriteFile "/app/temp/3f0c/Program.py" (JStr "print(1+1)");
      Exec "python3 /app/temp/3f0c/Program.py" 300000;
      Rm "/app/temp/3f0c";
      Send 200 {| responseCode := 201; output := "2"; errorMessage := "" |}],
     inr tt).
Proof. repeat split; discriminate. Qed.

End InputFile.

(** ** The run target of a java command *)

Section RunTarget.
Import JsString.

Lemma rev_onto_append (s acc : string) : rev_onto s acc = rev s ++ acc.
Proof.
  unfold rev. revert acc; induction s as [|c s IH]; intros acc; simpl;
    [reflexivity|].
  rewrite IH, (IH (String c "")), append_assoc. reflexivity.
Qed.

Lemma rev_append (a b : string) : rev (a ++ b) = rev b ++ rev a.
Proof.
  induction a as [|c a IH]; simpl.
  - now rewrite append_nil_r.
  - unfold rev in *. simpl.
    rewrite (rev_onto_append (a ++ b)), (rev_onto_append a).
    fold (rev (a ++ b)). unfold rev in IH. unfold rev. rewrite IH.
    apply append_assoc.
Qed.

Lemma rev_involutive (s : string) : rev (rev s) = s.
Proof.
  induction s as [|c s IH]; [reflexivity|].
  change (String c s) with (String c "" ++ s) at 1.
  rewrite rev_append, rev_append, IH. reflexivity.
Qed.

Lemma id_part_no_separator (c : ascii) :
  is_id_part c = true -> Ascii.eqb c "/"%char = false.
Proof.
  destruct c as [[] [] [] [] [] [] [] []]; vm_compute; congruence.
Qed.

Lemma last_segment_plain (s acc : string) :
  forallb (fun c => negb (Ascii.eqb c "/"%char)) s = true ->
  Path.last_segment s acc = rev_onto acc s.
Proof.
  revert acc; induction s as [|c s IH]; intros acc; simpl; [reflexivity|].
  destruct (Ascii.eqb c "/"%char); simpl; [discriminate|].
  intros H. now rewrite IH.
Qed.

Lemma forallb_append (p : ascii -> bool) (a b : string) :
  forallb p (a ++ b) = forallb p a && forallb p b.
Proof.
  induction a as [|c a IH]; simpl; [reflexivity|].
  rewrite IH. apply andb_assoc.
Qed.

Lemma forallb_weaken (p q : ascii -> bool) (s : string) :
  (forall c, p c = true -> q c = true) ->
  forallb p s = true -> forallb q s = true.
Proof.
  intros Hpq. induction s as [|c s IH]; simpl; [reflexivity|].
  intros H. apply andb_prop in H as (Hc & Hs).
  now rewrite (Hpq _ Hc), IH.
Qed.

(** [path.basename(fileName, ".java")] gives back the class name the file
    was named after. *)
Lemma basename_java (id : string) :
  ClassPattern.identifier id -> Path.basename (id ++ ".java") ".java" = id.
Proof.
  intros (c & r & -> & Hc & Hr).
  assert (Hp : forallb is_id_part (String c r) = true).
  { simpl. unfold is_id_part at 1. now rewrite Hc, Hr. }
  assert (Hs : forallb (fun c => negb (Ascii.eqb c "/"%char))
                 (String c r ++ ".java") = true).
  { rewrite forallb_append. apply andb_true_intro. split; [|reflexivity].
    apply (forallb_weaken is_id_part); [|exact Hp].
    intros x Hx. now rewrite (id_part_no_separator _ Hx). }
  unfold Path.basename.
  replace (String.eqb (String c r ++ ".java") ".java") with false.
  2: { symmetry. apply String.eqb_neq. intros E.
       apply (f_equal String.length) in E. rewrite length_append in E.
       simpl in E. lia. }
  rewrite (last_segment_plain _ _ Hs).
  change (rev_onto "" (String c r ++ ".java")) with (String c r ++ ".java").
  rewrite rev_append.
  assert (E : strip_prefix (rev ".java") (rev ".java" ++ rev (String c r))
              = Some (rev (String c r))) by now apply strip_prefix_spec.
  rewrite E.
  destruct (rev (String c r)) as [|x y] eqn:Er.
  - apply (f_equal rev) in Er. rewrite rev_involutive in Er. discriminate.
  - simpl. rewrite <- Er. apply rev_involutive.
Qed.

(** So the java command compiles [<Identifier>.java] and runs
    [<Identifier>] with the workspace as class path. *)
Lemma java_command (dir id : string) (inputFilePath : option string) :
  ClassPattern.identifier id ->
  App.executionCommand "java" dir (id ++ ".java") (Path.join dir (id ++ ".java"))
    inputFilePath
  = Some ("javac " ++ Path.join dir (id ++ ".java") ++ " && java -cp " ++ dir
          ++ " " ++ id
          ++ match inputFilePath with Some i => " < " ++ i | None => "" end).
Proof.
  intros Hid. unfold App.executionCommand. simpl String.eqb. cbv iota.
  rewrite (basename_java _ Hid). destruct inputFilePath; [reflexivity|].
  now rewrite append_nil_r.
Qed.

End RunTarget.

(** ** The command line *)

Section Command.
Import App.

(** A run that spawns a command: the command is the value of the [switch]
    on the lower-cased language, the workspace, the name and path of the
    source file, and the path of the input file if one was written. *)
Lemma command_of_run (w : env) (body : request) (c : string) :
  commands (trace (run_program w body)) = [c] ->
  exists l fileName ip,
    language body = JStr l /\
    paths_written (trace (run_program w body))
    = Path.join (tempDir w) fileName :: option_list ip /\
    executionCommand (JsString.toLowerCase l) (tempDir w) fileName
      (Path.join (tempDir w) fileName) ip = Some c.
Proof.
  unfold paths_written.
  destruct (run_program_run w body) as
    [ | | | | | | | l s id _ _ El Hj _ _ | l _ _ El _ _ ];
    try discriminate.
  all: in_workspace; destruct (writes_silent _ Hws) as (R & C & S & HRm); simpl;
    rewrite commands_app, C; simpl; try discriminate.
  all: rewrite files_written_app; simpl;
    rewrite files_written_callback, app_nil_r, Hp;
    destruct (exec_callback_run w (tempDir w)) as (st & b & ->); simpl;
    intros [= <-].
  - exists l, (id ++ ".java"), ip. rewrite Hj.
    destruct ip; repeat split; assumption.
  - eexists l, _, ip. destruct ip; repeat split; eassumption.
Qed.

(** C5, as amended.  Two requests with the same language that are run in
    the same workspace path and write the same files, that is the same
    source-file path and the same input-file path or none, get the same
    command, whatever their code is.  The code itself is no argument of
    the command; for java it decides the name of the source file. *)
Theorem command_determined_by_paths
    (w1 w2 : env) (b1 b2 : request) (c1 c2 : string) :
  tempDir w1 = tempDir w2 -> language b1 = language b2 ->
  commands (trace (run_program w1 b1)) = [c1] ->
  commands (trace (run_program w2 b2)) = [c2] ->
  paths_written (trace (run_program w1 b1))
  = paths_written (trace (run_program w2 b2)) ->
  c1 = c2.
Proof.
  intros Hd Hl H1 H2 Hp.
  destruct (command_of_run _ _ _ H1) as (l1 & f1 & i1 & L1 & P1 & E1).
  destruct (command_of_run _ _ _ H2) as (l2 & f2 & i2 & L2 & P2 & E2).
  rewrite P1, P2, Hd in Hp. injection Hp as Hf Hi.
  unfold Path.join in Hf. apply append_inv_head in Hf.
  simpl in Hf. injection Hf as Hf.
  assert (i1 = i2) by (destruct i1, i2; simpl in Hi; congruence).
  assert (l1 = l2) by congruence.
  subst. rewrite Hd in E1. congruence.
Qed.

Lemma command_determined_by_paths_witness :
  let b1 := Sample.java "class Main { int x; }" JUndefined in
  let b2 :=
    Sample.java "public class Main { static void main(String[] a) { } }"
      JUndefined in
  paths_written (trace (run_program Sample.world b1))
  = paths_written (trace (run_program Sample.timed_out b2)) /\
  exists c1 c2,
    commands (trace (run_program Sample.world b1)) = [c1] /\
    commands (trace (run_program Sample.timed_out b2)) = [c2] /\
    c1 = c2.
Proof.
  intros b1 b2. split; [reflexivity|].
  set (c := "javac /app/temp/3f0c/Main.java && java -cp /app/temp/3f0c Main").
  exists c, c. split; [reflexivity|]. split; [reflexivity|].
  exact (command_determined_by_paths Sample.world Sample.timed_out b1 b2 c c
           eq_refl eq_refl eq_refl eq_refl eq_refl).
Defined.

(** C5 as it was stated fails for java: with the same language, workspace
    and input, two codes that name different classes get different
    commands. *)
Lemma command_counterexample :
  let b1 := Sample.java "class A {}" JUndefined in
  let b2 := Sample.java "class B {}" JUndefined in
  language b1 = language b2 /\ input b1 = input b2 /\
  commands (trace (run_program Sample.world b1))
  = ["javac /app/temp/3f0c/A.java && java -cp /app/temp/3f0c A"] /\
  commands (trace (run_program Sample.world b2))
  = ["javac /app/temp/3f0c/B.java && java -cp /app/temp/3f0c B"] /\
  commands (trace (run_program Sample.world b1))
  <> commands (trace (run_program Sample.world b2)).
Proof. repeat split. discriminate. Qed.

End Command.

(** ** The name of a java source file *)

Section JavaSource.
Import App.



End JavaSource.

(** ** The supervisor keeps the pool full *)

Section Pool.
Import Supervisor.

Lemma fork_loop_adds (k : nat) (s : state) :
  fork_loop k s
  = {| live := k + live s; pending := pending s; forked := k + forked s |}.
Proof.
  revert s; induction k as [|k IH]; intros s; simpl.
  - now destruct s.
  - rewrite IH. simpl. f_equal; lia.
Qed.

Lemma startup_pool (numCPUs : nat) :
  startup numCPUs = {| live := numCPUs; pending := 0; forked := numCPUs |}.
Proof. unfold startup. rewrite fork_loop_adds. simpl. f_equal; lia. Qed.

(** One step keeps the sum of running workers and undelivered exits, and
    forks once exactly when an exit is delivered. *)
Lemma step_invariant (l : label) (s s' : state) :
  step l s = Some s' ->
  live s' + pending s' = live s + pending s /\
  forked s' = forked s + (if is_delivery l then 1 else 0).
Proof.
  destruct l; simpl.
  - destruct (live s) as [|n] eqn:E; [discriminate|].
    intros [= <-]. simpl. lia.
  - destruct (pending s) as [|n] eqn:E; [discriminate|].
    intros [= <-]. simpl. rewrite E. simpl. lia.
Qed.

Lemma run_invariant (ls : list label) (s s' : state) :
  run ls s = Some s' ->
  live s' + pending s' = live s + pending s /\
  forked s' = forked s + deliveries ls.
Proof.
  revert s; induction ls as [|l ls IH]; intros s; simpl.
  - intros [= <-]. unfold deliveries. simpl. lia.
  - destruct (step l s) as [s1|] eqn:E; [|discriminate].
    intros H. destruct (IH _ H) as (H1 & H2).
    destruct (step_invariant _ _ _ E) as (H3 & H4).
    unfold deliveries in *. simpl. destruct l; simpl in *; lia.
Qed.

(** C9.  Startup forks one worker per core and nothing else.  From then
    on, whatever workers exit and whenever the exits are delivered, each
    delivered exit forks exactly one worker, with no condition on the past;
    so the running workers and the exits not yet delivered always add up
    to the number of cores, and the pool is full whenever no exit is
    pending. *)
Theorem pool_maintained (numCPUs : nat) :
  startup numCPUs = {| live := numCPUs; pending := 0; forked := numCPUs |} /\
  (forall ls s,
      run ls (startup numCPUs) = Some s ->
      live s + pending s = numCPUs /\
      forked s = numCPUs + deliveries ls /\
      (pending s = 0 -> live s = numCPUs)) /\
  (forall s,
      pending s <> 0 ->
      exists s',
        step ExitDelivered s = Some s' /\
        live s' = S (live s) /\ forked s' = S (forked s) /\
        S (pending s') = pending s).
Proof.
  split; [apply startup_pool|]. split.
  - intros ls s H. apply run_invariant in H. rewrite startup_pool in H.
    simpl in H. lia.
  - intros s Hp. exists (on_exit s). simpl.
    destruct (pending s) as [|n] eqn:E; [congruence|].
    unfold on_exit. simpl. rewrite E. now repeat split.
Qed.

Lemma pool_maintained_witness :
  let ls := [WorkerExits; WorkerExits; ExitDelivered; WorkerExits;
             ExitDelivered; ExitDelivered] in
  run ls (startup 4) = Some {| live := 4; pending := 0; forked := 7 |} /\
  live {| live := 4; pending := 0; forked := 7 |} = 4.
Proof.
  intros ls. split; [reflexivity|].
  destruct (pool_maintained 4) as (_ & H & _).
  destruct (H ls {| live := 4; pending := 0; forked := 7 |} eq_refl)
    as (_ & _ & Hfull).
  exact (Hfull eq_refl).
Defined.

End Pool.

(** ** Runs that reach the workspace *)

Section Materialized.
Import App.

(** A run that writes a file got as far as the [try] statement. *)
Lemma materialized (w : env) (body : request) :
  files_written (trace (run_program w body)) <> [] ->
  exists l fileName,
    admitted body /\ mkdir_result w = None /\
    language body = JStr l /\
    named body (JsString.toLowerCase l) fileName /\
    run_program w body
    = (emit (Mkdir (tempDir w)) ;;
       run_in_workspace w body (JsString.toLowerCase l) fileName
         (Path.join (tempDir w) fileName)).
Proof.
  destruct (run_program_run w body) as
    [ | | | | | | | l s id Ha Hm El Hj Ec Hn | l Ha Hm El Hs Hnj ];
    try (intros Hne; now elim Hne).
  - intros _. exists l, (id ++ ".java"). rewrite Hj.
    split; [exact Ha|]. split; [exact Hm|]. split; [exact El|].
    split; [|reflexivity]. left. split; [reflexivity|]. now exists s, id.
  - intros _. eexists l, _.
    split; [exact Ha|]. split; [exact Hm|]. split; [exact El|].
    split; [|reflexivity]. right. repeat split; assumption.
Qed.

Lemma run_in_workspace_source_rejected (w : env) (body : request)
    (lower fileName filePath : string) (e : exn) :
  write_source_result w = Some e ->
  run_in_workspace w body lower fileName filePath
  = ([WriteFile filePath (code body); Rm (tempDir w); internal_error e], inr tt).
Proof.
  intros Hs. unfold run_in_workspace, try_block, call.
  rewrite Hs, cleanup_run. reflexivity.
Qed.

Lemma run_in_workspace_input_rejected (w : env) (body : request)
    (lower fileName filePath : string) (l : list jsval) (e : exn) :
  write_source_result w = None -> input body = JArr l ->
  write_input_result w = Some e ->
  run_in_workspace w body lower fileName filePath
  = ([WriteFile filePath (code body);
      WriteFile (input_path w) (JStr (Js.array_join newline l));
      Rm (tempDir w); internal_error e], inr tt).
Proof.
  intros Hs Hi He. unfold run_in_workspace, try_block, prepareInputFile, call.
  rewrite Hs, Hi, He, cleanup_run. reflexivity.
Qed.

(** The paths that the [try] block writes to: the source file, and then at
    most the input file. *)
Lemma run_in_workspace_paths (w : env) (body : request)
    (lower fileName filePath : string) :
  exists d rest,
    files_written (trace (run_in_workspace w body lower fileName filePath))
    = (filePath, code body) :: rest /\
    (rest = [] \/ rest = [(input_path w, d)]).
Proof.
  destruct (write_source_result w) as [e|] eqn:Hs.
  { rewrite (run_in_workspace_source_rejected _ _ _ _ _ _ Hs).
    exists JNull, []. split; [reflexivity | now left]. }
  pose proof (files_written_callback w (tempDir w)) as Hcb.
  destruct (exec_callback w (tempDir w)) as [tcb rcb] eqn:Ecb. simpl in Hcb.
  unfold run_in_workspace, try_block, prepareInputFile, call, exec, input_path.
  rewrite Hs, Ecb, cleanup_run.
  destruct (Js.truthy (input body)).
  - destruct (input body) as [| |b0|n|s|l];
      try (exists JNull, []; split; [reflexivity | now left]).
    exists (JStr (Js.array_join newline l)), [(input_path w, JStr (Js.array_join newline l))].
    split; [|now right].
    destruct (write_input_result w); [reflexivity|]. simpl.
    destruct (executionCommand lower (tempDir w) fileName filePath
                (Some (Path.join (tempDir w) "input.txt")));
      simpl; now rewrite ?Hcb.
  - exists JNull, []. split; [|now left]. simpl.
    destruct (executionCommand lower (tempDir w) fileName filePath None);
      simpl; now rewrite ?Hcb.
Qed.

(** X1.  When [exec] was started and its callback reports no error, the
    single answer has status 200 and carries responseCode 201, the trimmed
    standard output and an empty errorMessage. *)
Theorem success_response (w : env) (body : request) :
  spawned (trace (run_program w body)) = true -> exec_err w = None ->
  responses (trace (run_program w body)) = [(200%Z, success_answer w)].
Proof.
  intros Hs He.
  destruct (spawned_run w body Hs) as (pre & cmd & -> & R & _ & _).
  simpl trace. rewrite responses_app, R. simpl.
  unfold exec_callback. rewrite cleanup_run, He. reflexivity.
Qed.

Lemma success_response_witness :
  let body := Sample.python "print(1+1)" JUndefined in
  spawned (trace (run_program Sample.world body)) = true /\
  responses (trace (run_program Sample.world body))
  = [(200%Z, {| responseCode := 201; output := "2"; errorMessage := "" |})].
Proof.
  intros body. split; [reflexivity|].
  exact (success_response Sample.world body eq_refl eq_refl).
Defined.

(** X2.  When the write of the source file is rejected, nothing else is
    written and nothing is spawned; the workspace is removed once and the
    answer is status 500 with responseCode 202, the message of the error
    as output and "Internal server error occurred." *)
Theorem source_write_rejected (w : env) (body : request) (e : exn) :
  files_written (trace (run_program w body)) <> [] ->
  write_source_result w = Some e ->
  exists filePath,
    run_program w body
    = ([Mkdir (tempDir w); WriteFile filePath (code body); Rm (tempDir w);
        Send 500 {| responseCode := 202; output := exn_message e;
                    errorMessage := "Internal server error occurred." |}],
       inr tt).
Proof.
  intros Hf Hs.
  destruct (materialized w body Hf) as (l & fn & _ & _ & _ & _ & ->).
  rewrite bind_emit, (run_in_workspace_source_rejected _ _ _ _ _ _ Hs).
  eexists. reflexivity.
Qed.

(** X3.  When the input is an array and the write of the input file is
    rejected, nothing is spawned; the workspace is removed and the answer
    is the internal-error answer with the message of the error.  The text
    that was to be written is the entries joined by newline. *)
Theorem input_write_rejected (w : env) (body : request)
    (l : list jsval) (e : exn) :
  files_written (trace (run_program w body)) <> [] ->
  write_source_result w = None -> input body = JArr l ->
  entries_exact l ->
  write_input_result w = Some e ->
  exists filePath,
    run_program w body
    = ([Mkdir (tempDir w); WriteFile filePath (code body);
        WriteFile (input_path w) (JStr (Js.array_join newline l));
        Rm (tempDir w);
        Send 500 {| responseCode := 202; output := exn_message e;
                    errorMessage := "Internal server error occurred." |}],
       inr tt).
Proof.
  intros Hf Hs Hi _ He.
  destruct (materialized w body Hf) as (l' & fn & _ & _ & _ & _ & ->).
  rewrite bind_emit, (run_in_workspace_input_rejected _ _ _ _ _ _ _ Hs Hi He).
  eexists. reflexivity.
Qed.

Lemma source_write_rejected_witness :
  let body := Sample.python "print(1+1)" (JArr [JStr "1"]) in
  exists filePath,
    run_program (source_rejecting disk_full) body
    = ([Mkdir "/app/temp/3f0c"; WriteFile filePath (JStr "print(1+1)");
        Rm "/app/temp/3f0c";
        Send 500 {| responseCode := 202;
                    output := "ENOSPC: no space left on device, write";
                    errorMessage := "Internal server error occurred." |}],
       inr tt).
Proof.
  intros body.
  assert (Hf : files_written (trace (run_program (source_rejecting disk_full) body))
               <> []) by discriminate.
  exact (source_write_rejected (source_rejecting disk_full) body disk_full
           Hf eq_refl).
Defined.

Lemma input_write_rejected_witness :
  let body := Sample.python "print(input())" (JArr [JStr "1"; JNum 2]) in
  exists filePath,
    run_program (input_rejecting disk_full) body
    = ([Mkdir "/app/temp/3f0c"; WriteFile filePath (JStr "print(input())");
        WriteFile "/app/temp/3f0c/input.txt" (JStr ("1" ++ App.newline ++ "2"));
        Rm "/app/temp/3f0c";
        Send 500 {| responseCode := 202;
                    output := "ENOSPC: no space left on device, write";
                    errorMessage := "Internal server error occurred." |}],
       inr tt).
Proof.
  intros body.
  assert (Hf : files_written (trace (run_program (input_rejecting disk_full) body))
               <> []) by discriminate.
  exact (input_write_rejected (input_rejecting disk_full) body
           [JStr "1"; JNum 2] disk_full Hf eq_refl eq_refl eq_refl eq_refl).
Defined.

End Materialized.

(** ** How a run ends *)

Section Ending.
Import App.

(** X4.  A run of the handler either ends normally, and then it has sent
    exactly one answer, or it ends with an exception that nothing catches,
    and then it has sent no answer and attempted no removal.  The second
    happens exactly in three places, all after the two early checks:
    [fs.mkdir] is rejected, [language] is no string, or the language is
    java and [code] is no string. *)
Theorem handler_ending (w : env) (body : request) :
  match outcome (run_program w body) with
  | inr _ => List.length (responses (trace (run_program w body))) = 1%nat
  | inl e =>
      responses (trace (run_program w body)) = [] /\
      removals (tempDir w) (trace (run_program w body)) = 0%nat /\
      admitted body /\
      (mkdir_result w = Some e \/
       (mkdir_result w = None /\ is_string (language body) = false) \/
       (mkdir_result w = None /\ is_string (code body) = false /\
        exists l, language body = JStr l /\ JsString.toLowerCase l = "java"))
  end.
Proof.
  assert (Hns : forall v, (forall s, v <> JStr s) -> is_string v = false).
  { intros [| |b|n|s|l] H; try reflexivity. now elim (H s). }
  destruct (run_program_run w body) as
    [ | | e Ha Hm | Ha Hm Hl | | l Ha Hm El Hj Hc | | | ];
    try reflexivity.
  - simpl. repeat split; try apply Ha. now left.
  - simpl. repeat split; try apply Ha. right; left. split; [exact Hm|].
    now apply Hns.
  - simpl. repeat split; try apply Ha. right; right.
    split; [exact Hm|]. split; [now apply Hns|]. now exists l.
  - in_workspace; simpl.
    + destruct (exec_callback_run w (tempDir w)) as (st & b & ->). simpl.
      destruct (writes_silent _ Hws) as (R & _).
      rewrite responses_app, R. reflexivity.
    + destruct (writes_silent _ Hws) as (R & _).
      rewrite responses_app, R. reflexivity.
  - in_workspace; simpl.
    + destruct (exec_callback_run w (tempDir w)) as (st & b & ->). simpl.
      destruct (writes_silent _ Hws) as (R & _).
      rewrite responses_app, R. reflexivity.
    + destruct (writes_silent _ Hws) as (R & _).
      rewrite responses_app, R. reflexivity.
Qed.

Lemma cleanup_any_rm (w : env) (r : option exn) (dir : string) :
  cleanup (with_rm_result w r) dir = cleanup w dir.
Proof. now rewrite !cleanup_run. Qed.

(** X5.  Whether [fs.rm] resolves or is rejected makes no difference to a
    run: the rejection is caught inside [cleanup], and the events and the
    answer stay the same. *)
Theorem removal_failure_ignored (w : env) (r : option exn) (body : request) :
  run_program (with_rm_result w r) body = run_program w body.
Proof.
  assert (Hcb : forall dir, exec_callback (with_rm_result w r) dir
                            = exec_callback w dir).
  { intros dir. unfold exec_callback. now rewrite cleanup_any_rm. }
  assert (Hws : forall lo fn fp,
             run_in_workspace (with_rm_result w r) body lo fn fp
             = run_in_workspace w body lo fn fp).
  { intros lo fn fp. unfold run_in_workspace, try_catch.
    change (try_block (with_rm_result w r) body lo fn fp)
      with (try_block w body lo fn fp).
    destruct (try_block w body lo fn fp) as [t [e|started]].
    - simpl tempDir. rewrite cleanup_any_rm, cleanup_run. reflexivity.
    - simpl. now rewrite Hcb. }
  unfold run_program. simpl tempDir. simpl mkdir_result.
  repeat rewrite cleanup_any_rm.
  destruct (negb (Js.truthy (code body)) || negb (Js.truthy (language body)));
    [reflexivity|].
  destruct (too_large body); [reflexivity|].
  destruct (call (Mkdir (tempDir w)) (mkdir_result w)) as [t [e|[]]];
    [reflexivity|]. simpl.
  destruct (toLowerCase (language body)) as [t' [e|lower]]; [reflexivity|].
  simpl.
  destruct (negb (property_truthy (fileExtensions_get lower))).
  { now rewrite ?cleanup_any_rm. }
  destruct (String.eqb lower "java").
  - destruct (code_match (code body)) as [t'' [e|[id|]]]; simpl;
      try reflexivity.
    destruct (negb (JsString.is_empty id));
      [now rewrite Hws | now rewrite ?cleanup_any_rm].
  - now rewrite Hws.
Qed.

End Ending.

(** ** The language name *)

Section LanguageName.
Import App.

Lemma toLowerCase_empty (l : string) :
  JsString.is_empty (JsString.toLowerCase l) = JsString.is_empty l.
Proof. now destruct l. Qed.

(** X6.  The language is read through [toLowerCase] only: two requests
    whose language names differ in the case of letters, and which are equal
    otherwise, are run in the same way. *)
Theorem language_case_insensitive (w : env) (c i : jsval) (l1 l2 : string) :
  JsString.toLowerCase l1 = JsString.toLowerCase l2 ->
  run_program w {| code := c; language := JStr l1; input := i |}
  = run_program w {| code := c; language := JStr l2; input := i |}.
Proof.
  intros H.
  assert (He : JsString.is_empty l1 = JsString.is_empty l2)
    by now rewrite <- (toLowerCase_empty l1), <- (toLowerCase_empty l2), H.
  unfold run_program, too_large, toLowerCase. simpl. rewrite He, H.
  destruct (negb (Js.truthy c) || negb (negb (JsString.is_empty l2)));
    [reflexivity|].
  destruct (Js.gt (Js.length_of c) 5000
            || Js.truthy i && Js.gt (Js.length_of i) 1000); [reflexivity|].
  destruct (call (Mkdir (tempDir w)) (mkdir_result w)) as [t [e|[]]];
    [reflexivity|]. simpl.
  destruct (negb (property_truthy (fileExtensions_get (JsString.toLowerCase l2))));
    [reflexivity|].
  destruct (String.eqb (JsString.toLowerCase l2) "java").
  - destruct (code_match c) as [t' [e|[id|]]]; reflexivity.
  - reflexivity.
Qed.

Lemma language_case_insensitive_witness :
  JsString.toLowerCase "PyThOn" = JsString.toLowerCase "python" /\
  run_program Sample.world
    {| code := JStr "print(1+1)"; language := JStr "PyThOn"; input := JUndefined |}
  = run_program Sample.world (Sample.python "print(1+1)" JUndefined).
Proof.
  split; [reflexivity|].
  exact (language_case_insensitive Sample.world (JStr "print(1+1)") JUndefined
           "PyThOn" "python" eq_refl).
Defined.


(** The [switch] has a case exactly for the keys of [fileExtensions]. *)
Lemma command_iff_listed (lang dir fileName filePath : string)
    (inputFilePath : option string) :
  (exists c, executionCommand lang dir fileName filePath inputFilePath = Some c)
  <-> In lang languages.
Proof.
  unfold executionCommand, languages, fileExtensions. simpl map. simpl In.
  destruct (String.eqb_spec lang "java");
    [split; [intros _; now left | intros _; eexists; reflexivity]|].
  destruct (String.eqb_spec lang "python");
    [split; [intros _; right; now left | intros _; eexists; reflexivity]|].
  destruct (String.eqb_spec lang "javascript");
    [split; [intros _; do 2 right; now left | intros _; eexists; reflexivity]|].
  destruct (String.eqb_spec lang "c");
    [split; [intros _; do 3 right; now left | intros _; eexists; reflexivity]|].
  destruct (String.eqb_spec lang "cpp");
    [split; [intros _; do 4 right; now left | intros _; eexists; reflexivity]|].
  destruct (String.eqb_spec lang "csharp");
    [split; [intros _; do 5 right; now left | intros _; eexists; reflexivity]|].
  split; [intros (c & H); discriminate | intuition congruence].
Qed.

(** X10.  A command is spawned only for one of the six languages of
    [fileExtensions] (java, python, javascript, c, cpp, csharp), compared
    in lower case. *)
Theorem spawned_language_listed (w : env) (body : request) :
  spawned (trace (run_program w body)) = true ->
  exists l, language body = JStr l /\ In (JsString.toLowerCase l) languages.
Proof.
  intros Hs.
  assert (Hc : exists c, commands (trace (run_program w body)) = [c]).
  { destruct (spawned_run w body Hs) as (pre & cmd & -> & _ & C & _).
    simpl trace. rewrite commands_app, C. simpl.
    destruct (exec_callback_run w (tempDir w)) as (st & b & ->).
    now exists cmd. }
  destruct Hc as (c & Hc).
  destruct (command_of_run _ _ _ Hc) as (l & fn & ip & El & _ & E).
  exists l. split; [exact El|].
  apply (command_iff_listed _ (tempDir w) fn (Path.join (tempDir w) fn) ip).
  now exists c.
Qed.

Lemma spawned_language_listed_witness :
  let body := Sample.java Sample.hello JUndefined in
  spawned (trace (run_program Sample.world body)) = true /\
  exists l, language body = JStr l /\ In (JsString.toLowerCase l) languages.
Proof.
  intros body. split; [reflexivity|].
  exact (spawned_language_listed Sample.world body eq_refl).
Defined.

End LanguageName.

(** ** What is written, and where *)

Section Written.
Import App.

Lemma identifier_plain (id : string) :
  ClassPattern.identifier id -> plain_name (id ++ ".java") = true.
Proof.
  intros (c & r & -> & Hc & Hr). unfold plain_name.
  rewrite forallb_append. apply andb_true_intro. split; [|reflexivity].
  apply (forallb_weaken JsString.is_id_part).
  - intros x Hx. now rewrite (id_part_no_separator _ Hx).
  - simpl. unfold JsString.is_id_part at 1. now rewrite Hc, Hr.
Qed.

Lemma program_name_plain (key : string) :
  plain_name ("Program." ++ property_shown (fileExtensions_get key)) = true.
Proof.
  unfold fileExtensions_get, fileExtensions, own.
  repeat match goal with
         | |- context [String.eqb ?a ?b] => destruct (String.eqb a b)
         end; reflexivity.
Qed.

Lemma named_plain (body : request) (lower fileName : string) :
  named body lower fileName -> plain_name fileName = true.
Proof.
  intros [(_ & s & id & _ & Hn & ->) | (_ & _ & ->)].
  - destruct (class_name_sound _ _ Hn) as (pre & ws & rest & Ho & _).
    apply identifier_plain. apply Ho.
  - apply program_name_plain.
Qed.

(** X7.  Every file the handler writes lies directly in the workspace of
    the request: its path is the workspace path, a separator, and a name
    without separator, whatever the code, the language and the input are. *)
Theorem writes_stay_in_workspace (w : env) (body : request)
    (path : string) (data : jsval) :
  In (path, data) (files_written (trace (run_program w body))) ->
  exists name, path = Path.join (tempDir w) name /\ plain_name name = true.
Proof.
  intros Hin.
  assert (Hf : files_written (trace (run_program w body)) <> [])
    by (intros E; rewrite E in Hin; exact Hin).
  destruct (materialized w body Hf) as (l & fn & _ & _ & _ & Hn & E).
  rewrite E, bind_emit in Hin. simpl in Hin.
  destruct (run_in_workspace_paths w body (JsString.toLowerCase l) fn
              (Path.join (tempDir w) fn)) as (d & rest & Hp & Hr).
  rewrite Hp in Hin. destruct Hin as [Hin | Hin].
  - injection Hin as <- _. exists fn. split; [reflexivity|].
    exact (named_plain _ _ _ Hn).
  - destruct Hr as [-> | ->]; [contradiction|].
    destruct Hin as [Hin | []]. injection Hin as <- _.
    exists "input.txt". now split.
Qed.

Lemma writes_stay_in_workspace_witness :
  let body := Sample.java Sample.hello (JArr [JStr "1"]) in
  In ("/app/temp/3f0c/Hello.java", JStr Sample.hello)
     (files_written (trace (run_program Sample.world body))) /\
  exists name,
    "/app/temp/3f0c/Hello.java" = Path.join (tempDir Sample.world) name /\
    plain_name name = true.
Proof.
  intros body.
  assert (Hin : In ("/app/temp/3f0c/Hello.java", JStr Sample.hello)
                  (files_written (trace (run_program Sample.world body))))
    by (left; reflexivity).
  split; [exact Hin|].
  exact (writes_stay_in_workspace Sample.world body _ _ Hin).
Defined.

(** X8.  Before a command is spawned, the workspace has been created and
    the source file has been written into it with the submitted code as it
    is, and both calls have succeeded. *)
Theorem source_written_before_exec (w : env) (body : request) :
  spawned (trace (run_program w body)) = true ->
  mkdir_result w = None /\ write_source_result w = None /\
  exists filePath rest,
    trace (run_program w body)
    = Mkdir (tempDir w) :: WriteFile filePath (code body) :: rest /\
    spawned rest = true.
Proof.
  intros Hs.
  assert (Hf : files_written (trace (run_program w body)) <> []).
  { revert Hs. destruct (run_program_run w body); intros Hs E;
      try (simpl in Hs; discriminate);
      rewrite bind_emit in E; cbv zeta in E;
      match type of E with context [run_in_workspace ?w ?b ?lo ?fn ?fp] =>
        destruct (run_in_workspace_paths w b lo fn fp) as (d & r & Hp & _)
      end; unfold trace at 1 in E; cbn [fst files_written] in E;
      rewrite Hp in E; discriminate. }
  destruct (materialized w body Hf) as (l & fn & _ & Hm & _ & _ & E).
  split; [exact Hm|]. rewrite E, bind_emit in Hs |- *.
  destruct (write_source_result w) as [e|] eqn:Hw.
  - rewrite (run_in_workspace_source_rejected _ _ _ _ _ _ Hw) in Hs.
    discriminate.
  - split; [reflexivity|].
    destruct (run_in_workspace_cases w body (JsString.toLowerCase l) fn
                (Path.join (tempDir w) fn))
      as (ws & Hws & [(cmd & ip & _ & _ & R) | (err & R)]);
      rewrite R in Hs |- *; simpl in Hs |- *.
    + eexists _, _. split; [reflexivity|]. exact Hs.
    + eexists _, _. split; [reflexivity|]. exact Hs.
Qed.

Lemma source_written_before_exec_witness :
  let body := Sample.python "print(1+1)" JUndefined in
  spawned (trace (run_program Sample.world body)) = true /\
  exists filePath rest,
    trace (run_program Sample.world body)
    = Mkdir "/app/temp/3f0c" :: WriteFile filePath (JStr "print(1+1)") :: rest.
Proof.
  intros body. split; [reflexivity|].
  destruct (source_written_before_exec Sample.world body eq_refl)
    as (_ & _ & fp & rest & H & _).
  now exists fp, rest.
Defined.

(** X13.  Whatever is written passed the size check first: a source file
    that holds a string has at most 5000 characters, and an input file is
    made of at most 1000 entries. *)
Theorem written_within_limits (w : env) (body : request) :
  files_written (trace (run_program w body)) <> [] ->
  (forall s, code body = JStr s -> String.length s <= 5000) /\
  (forall l, input body = JArr l -> List.length l <= 1000).
Proof.
  intros Hf.
  destruct (materialized w body Hf) as (l & fn & (_ & _ & Hs) & _).
  unfold too_large in Hs. apply orb_false_elim in Hs as (Hc & Hi).
  split.
  - intros s Es. rewrite Es in Hc. simpl in Hc.
    apply Z.ltb_ge in Hc. lia.
  - intros l' El. rewrite El in Hi. simpl in Hi.
    apply Z.ltb_ge in Hi. lia.
Qed.

Lemma written_within_limits_witness :
  let body := Sample.python "print(1+1)" (JArr [JStr "1"; JStr "2"]) in
  files_written (trace (run_program Sample.world body)) <> [] /\
  (forall s, code body = JStr s -> String.length s <= 5000) /\
  (forall l, input body = JArr l -> List.length l <= 1000).
Proof.
  intros body.
  assert (Hf : files_written (trace (run_program Sample.world body)) <> [])
    by discriminate.
  split; [exact Hf|].
  exact (written_within_limits Sample.world body Hf).
Defined.

End Written.

(** ** More on the command line *)

Section Redirection.
Import App.

(** The command of a run is the value of the [switch] at the names of the
    request and at the input file, when the writes succeed and [input] is
    absent or an array. *)
Lemma command_of_usable_run (w : env) (body : request)
    (lower fileName : string) :
  write_source_result w = None -> write_input_result w = None ->
  input_usable body ->
  commands (trace (run_in_workspace w body lower fileName
                     (Path.join (tempDir w) fileName)))
  = option_list (executionCommand lower (tempDir w) fileName
                   (Path.join (tempDir w) fileName) (redirected w body)) /\
  (executionCommand lower (tempDir w) fileName
     (Path.join (tempDir w) fileName) (redirected w body) = None ->
   responses (trace (run_in_workspace w body lower fileName
                       (Path.join (tempDir w) fileName)))
   = [(500%Z, {| responseCode := 202; output := exn_message (exec_rejects w);
                 errorMessage := "Internal server error occurred." |})]).
Proof.
  intros Hs Hi Hu.
  destruct (exec_callback_run w (tempDir w)) as (st & b & Hcb).
  unfold run_in_workspace, try_block, prepareInputFile, call, exec, redirected,
    input_path.
  rewrite Hs, Hcb, cleanup_run.
  destruct Hu as [Hf | Ha].
  - rewrite Hf. simpl.
    assert (E : match input body with JArr _ => Some (Path.join (tempDir w) "input.txt")
                                 | _ => None end = None)
      by (destruct (input body); try reflexivity; discriminate).
    rewrite E.
    destruct (executionCommand lower (tempDir w) fileName
                (Path.join (tempDir w) fileName) None);
      simpl; split; try reflexivity; discriminate.
  - destruct (input body) as [| |b0|n|s|l]; try discriminate. simpl.
    rewrite Hi. simpl.
    destruct (executionCommand lower (tempDir w) fileName
                (Path.join (tempDir w) fileName)
                (Some (Path.join (tempDir w) "input.txt")));
      simpl; split; try reflexivity; discriminate.
Qed.

(** X9.  For every language the command with an input file is the command
    without one, followed by a redirection of standard input from that
    file. *)
Theorem input_is_redirected (lang dir fileName filePath i : string) :
  executionCommand lang dir fileName filePath (Some i)
  = option_map (fun c => c ++ " < " ++ i)
      (executionCommand lang dir fileName filePath None).
Proof.
  unfold executionCommand.
  repeat match goal with
         | |- context [String.eqb lang ?k] => destruct (String.eqb lang k)
         end;
    cbv [option_map]; try reflexivity;
    f_equal; now rewrite ?append_assoc.
Qed.

(** X11.  A language name that is no key of [fileExtensions] but names a
    property every object inherits ([constructor], [__proto__]) passes the
    language check.  The source is written, no case of the [switch]
    applies, [exec] throws on the missing command, and the answer is the
    internal-error answer with the message of that exception; nothing is
    spawned. *)
Theorem inherited_key_not_rejected (w : env) (body : request) (l : string) :
  language body = JStr l ->
  JsString.toLowerCase l = "constructor" \/ JsString.toLowerCase l = "__proto__" ->
  admitted body -> mkdir_result w = None ->
  write_source_result w = None -> write_input_result w = None ->
  input_usable body ->
  responses (trace (run_program w body))
  = [(500%Z, {| responseCode := 202; output := exn_message (exec_rejects w);
                errorMessage := "Internal server error occurred." |})] /\
  spawned (trace (run_program w body)) = false /\
  removals (tempDir w) (trace (run_program w body)) = 1%nat.
Proof.
  intros El Hk Ha Hm Hs Hi Hu.
  assert (Hnone : forall fn fp ip,
             executionCommand (JsString.toLowerCase l) (tempDir w) fn fp ip = None).
  { intros fn fp ip. destruct Hk as [-> | ->]; reflexivity. }
  destruct (run_program_run w body) as
    [ [H|H] | | | | l' _ _ El' Hu' | l' _ _ El' Hj _ | l' s _ _ El' Hj _ _
    | l' s id _ _ El' Hj _ _ | l' _ _ El' _ _ ];
    try (destruct Ha as (? & ? & ?); congruence).
  - exfalso. apply Hu'. replace l' with l by congruence.
    destruct Hk as [-> | ->]; reflexivity.
  - replace l' with l in Hj by congruence. destruct Hk; congruence.
  - replace l' with l in Hj by congruence. destruct Hk; congruence.
  - replace l' with l in Hj by congruence. destruct Hk; congruence.
  - replace l' with l in * by congruence. rewrite bind_emit. cbv zeta.
    set (fn := "Program." ++ property_shown (fileExtensions_get (JsString.toLowerCase l))).
    destruct (command_of_usable_run w body (JsString.toLowerCase l) fn Hs Hi Hu)
      as (Hc & Hr).
    rewrite Hnone in Hc. specialize (Hr (Hnone _ _ _)).
    destruct (run_in_workspace_cases w body (JsString.toLowerCase l) fn
                (Path.join (tempDir w) fn))
      as (ws & Hws & [(cmd & ip & _ & Hcmd & R) | (err & R)]).
    + rewrite Hnone in Hcmd. discriminate.
    + rewrite R in Hr |- *. simpl trace in *. split; [exact Hr|].
      destruct (writes_silent _ Hws) as (_ & _ & S & HRm).
      split.
      * unfold spawned. simpl. rewrite existsb_app. fold (spawned ws).
        now rewrite S.
      * change (Mkdir (tempDir w) :: WriteFile (Path.join (tempDir w) fn) (code body)
                  :: ws ++ [Rm (tempDir w); internal_error err])%list
          with ([Mkdir (tempDir w); WriteFile (Path.join (tempDir w) fn) (code body)]
                  ++ ws ++ [Rm (tempDir w); internal_error err])%list.
        rewrite !removals_app, HRm. unfold removals. simpl.
        now rewrite String.eqb_refl.
Qed.

Lemma inherited_key_not_rejected_witness :
  let body := {| code := JStr "print(1)"; language := JStr "Constructor";
                 input := JUndefined |} in
  admitted body /\ input_usable body /\
  responses (trace (run_program Sample.world body))
  = [(500%Z, {| responseCode := 202;
                output := Sample.command_type_error;
                errorMessage := "Internal server error occurred." |})] /\
  spawned (trace (run_program Sample.world body)) = false.
Proof.
  intros body.
  assert (Ha : admitted body) by (repeat split; reflexivity).
  assert (Hu : input_usable body) by (left; reflexivity).
  split; [exact Ha|]. split; [exact Hu|].
  destruct (inherited_key_not_rejected Sample.world body "Constructor"
              eq_refl (or_introl eq_refl) Ha eq_refl eq_refl eq_refl Hu)
    as (H1 & H2 & _).
  split; assumption.
Defined.

(** X12.  A java request whose code names a class, whose writes succeed
    and whose input is absent or an array, spawns exactly one command: it
    compiles [<Identifier>.java] and runs [<Identifier>] with the workspace
    as class path, with standard input taken from the input file if there
    is one. *)
Theorem java_run_target (w : env) (body : request) (l s id : string) :
  language body = JStr l -> JsString.toLowerCase l = "java" ->
  code body = JStr s -> ClassPattern.class_name s = Some id ->
  admitted body -> mkdir_result w = None ->
  write_source_result w = None -> write_input_result w = None ->
  input_usable body ->
  commands (trace (run_program w body))
  = ["javac " ++ Path.join (tempDir w) (id ++ ".java")
     ++ " && java -cp " ++ tempDir w ++ " " ++ id
     ++ match redirected w body with Some i => " < " ++ i | None => "" end].
Proof.
  intros El Hj Ec Hn Ha Hm Hs Hi Hu.
  assert (Hid : ClassPattern.identifier id).
  { destruct (class_name_sound _ _ Hn) as (pre & ws & rest & Ho & _).
    apply Ho. }
  destruct (run_program_run w body) as
    [ [H|H] | | | | l' _ _ El' Hu' | l' _ _ El' _ Hc | l' s' _ _ _ _ Ec' Hn'
    | l' s' id' _ _ _ _ Ec' Hn' | l' _ _ El' _ Hnj ];
    try (destruct Ha as (? & ? & ?); congruence).
  - exfalso. apply Hu'. replace l' with l by congruence. now rewrite Hj.
  - replace id' with id by congruence. rewrite bind_emit. simpl.
    destruct (command_of_usable_run w body "java" (id ++ ".java") Hs Hi Hu)
      as (Hc & _).
    rewrite Hc, (java_command _ _ _ Hid). reflexivity.
Qed.

Lemma java_run_target_witness :
  let body := Sample.java Sample.hello (JArr [JStr "1"]) in
  admitted body /\ input_usable body /\
  commands (trace (run_program Sample.world body))
  = ["javac /app/temp/3f0c/Hello.java && java -cp /app/temp/3f0c Hello < /app/temp/3f0c/input.txt"].
Proof.
  intros body.
  assert (Ha : admitted body) by (repeat split; reflexivity).
  assert (Hu : input_usable body) by (right; reflexivity).
  split; [exact Ha|]. split; [exact Hu|].
  exact (java_run_target Sample.world body "Java" Sample.hello "Hello"
           eq_refl eq_refl eq_refl eq_refl Ha eq_refl eq_refl eq_refl Hu).
Defined.

End Redirection.

(** ** Trimmed output *)

Section Trimmed.
Import JsString.

Lemma trim_trailing (s : string) (c : ascii) (r : string) :
  rev (trim s) = String c r -> is_space c = false.
Proof.
  unfold trim. rewrite rev_involutive. apply drop_while_head.
Qed.

Lemma trim_leading (s : string) (c : ascii) (r : string) :
  trim s = String c r -> is_space c = false.
Proof.
  unfold trim. set (y := drop_while is_space s).
  set (z := drop_while is_space (rev y)). intros Hz.
  assert (Hy : y = rev z ++ rev (take_while is_space (rev y))).
  { rewrite <- rev_append. fold z.
    unfold z. rewrite take_drop_while. symmetry. apply rev_involutive. }
  rewrite Hz in Hy. simpl in Hy.
  eapply drop_while_head. exact Hy.
Qed.

(** X14.  The output of a successful run has no white space at its start
    and none at its end. *)
Theorem success_output_trimmed (w : env) (body : App.request) :
  spawned (trace (App.run_program w body)) = true -> exec_err w = None ->
  exists st b,
    responses (trace (App.run_program w body)) = [(st, b)] /\
    (forall c r, output b = String c r -> is_space c = false) /\
    (forall c r, rev (output b) = String c r -> is_space c = false).
Proof.
  intros Hs He.
  destruct (spawned_run w body Hs) as (pre & cmd & -> & R & _ & _).
  simpl trace. rewrite responses_app, R. simpl.
  unfold App.exec_callback. rewrite cleanup_run, He. simpl.
  eexists; eexists. split; [reflexivity|]. simpl. split.
  - apply trim_leading.
  - apply trim_trailing.
Qed.

Lemma success_output_trimmed_witness :
  let body := Sample.python "print(1+1)" JUndefined in
  spawned (trace (App.run_program Sample.world body)) = true /\
  exists st b,
    responses (trace (App.run_program Sample.world body)) = [(st, b)] /\
    (forall c r, output b = String c r -> is_space c = false) /\
    (forall c r, rev (output b) = String c r -> is_space c = false).
Proof.
  intros body. split; [reflexivity|].
  exact (success_output_trimmed Sample.world body eq_refl eq_refl).
Defined.

End Trimmed.

(** ** The pool recovers *)

Section Recovery.
Import Supervisor.

Lemma deliver_pending (k : nat) (s : state) :
  pending s = k ->
  run (repeat ExitDelivered k) s
  = Some {| live := live s + k; pending := 0; forked := forked s + k |}.
Proof.
  revert s; induction k as [|k IH]; intros s Hp; simpl.
  - destruct s as [lv pd fk]. simpl in *. subst. f_equal. f_equal; lia.
  - rewrite Hp. rewrite IH.
    + unfold on_exit. simpl. f_equal. f_equal; lia.
    + unfold on_exit. simpl. now rewrite Hp.
Qed.

(** X15.  However many workers have exited, once the listener has been
    called for each exit that is still pending the pool is back at one
    worker per core, and exactly one worker was forked per exit. *)
Theorem pool_recovers (numCPUs : nat) (ls : list label) (s : state) :
  run ls (startup numCPUs) = Some s ->
  run (repeat ExitDelivered (pending s)) s
  = Some {| live := numCPUs; pending := 0; forked := forked s + pending s |}.
Proof.
  intros H. rewrite (deliver_pending (pending s) s eq_refl).
  apply run_invariant in H. rewrite startup_pool in H. simpl in H.
  f_equal. f_equal. lia.
Qed.

Lemma pool_recovers_witness :
  let s := {| live := 1; pending := 3; forked := 4 |} in
  run [WorkerExits; WorkerExits; WorkerExits] (startup 4) = Some s /\
  run [ExitDelivered; ExitDelivered; ExitDelivered] s
  = Some {| live := 4; pending := 0; forked := 7 |}.
Proof.
  intros s. split; [reflexivity|].
  exact (pool_recovers 4 [WorkerExits; WorkerExits; WorkerExits] s eq_refl).
Defined.

End Recovery.

(** ** One removal, one answer *)

Section OneRemoval.
Import App.

Lemma one_removal_one_response_witness :
  let body := Sample.java "int main() { return 0; }" (JStr "1") in
  admitted body /\
  removals "/app/temp/3f0c" (trace (run_program Sample.timed_out body)) = 1%nat /\
  List.length (responses (trace (run_program Sample.timed_out body))) = 1%nat.
Proof.
  intros body.
  assert (Ha : admitted body) by (repeat split; reflexivity).
  split; [exact Ha|].
  exact (one_removal_one_response Sample.timed_out body
           "int main() { return 0; }" "Java" eq_refl eq_refl Ha eq_refl).
Defined.

End OneRemoval.

(** ** The answer to an execution error *)

Section ExecutionError.
Import App JsString.

Lemma trim_trimmed_of (s : string) : trimmed_of s (trim s).
Proof.
  split; [|split; [apply trim_leading | apply trim_trailing]].
  unfold trim. set (y := drop_while is_space s).
  set (z := drop_while is_space (rev y)).
  exists (take_while is_space s), (rev (take_while is_space (rev y))).
  split; [|split].
  - rewrite <- rev_append. fold z. unfold z. rewrite take_drop_while.
    rewrite rev_involutive. unfold y. symmetry. apply take_drop_while.
  - apply forallb_take_while.
  - unfold rev at 1. rewrite forallb_rev_onto, forallb_take_while. reflexivity.
Qed.

(** C8, as amended.  Whenever the handler started [exec] and the callback
    reports an error of a child that was not killed, the single answer has
    status 500 and responseCode 202.  With [t] the standard error without
    the white space at its ends: if standard error contains ["error"],
    output is [t] and errorMessage is "Compilation error occurred.";
    otherwise errorMessage is "Runtime error occurred." and output is [t],
    or the message of the error when [t] is empty, which includes a
    standard error made of white space only. *)
Theorem execution_error_response (w : env) (body : request) (e : exec_error) :
  spawned (trace (run_program w body)) = true ->
  exec_err w = Some e -> killed e = false ->
  exists out msg t,
    responses (trace (run_program w body))
    = [(500%Z, {| responseCode := 202; output := out; errorMessage := msg |})] /\
    trimmed_of (exec_stderr w) t /\
    if includes (exec_stderr w) "error"
    then out = t /\ msg = "Compilation error occurred."
    else msg = "Runtime error occurred." /\
         (t <> "" -> out = t) /\ (t = "" -> out = message e).
Proof.
  intros Hs He Hk.
  destruct (spawned_run w body Hs) as (pre & cmd & -> & R & _ & _).
  simpl trace. rewrite responses_app, R. simpl.
  unfold exec_callback. rewrite cleanup_run, He, Hk. simpl.
  eexists; eexists; exists (trim (exec_stderr w)).
  split; [reflexivity|]. split; [apply trim_trimmed_of|].
  destruct (includes (exec_stderr w) "error") eqn:Hi.
  - rewrite (includes_error_trim _ Hi). now split.
  - split; [reflexivity|].
    destruct (is_empty (trim (exec_stderr w))) eqn:Ht.
    + apply is_empty_true in Ht. split; [congruence | reflexivity].
    + apply is_empty_false in Ht. split; [reflexivity | congruence].
Qed.

Lemma execution_error_response_witness :
  let w := Sample.crashed
             ("  Program.c:1:1: error: expected identifier " ++ newline) in
  spawned (trace (run_program w Sample.loop)) = true /\
  responses (trace (run_program w Sample.loop))
  = [(500%Z, {| responseCode := 202;
                output := "Program.c:1:1: error: expected identifier";
                errorMessage := "Compilation error occurred." |})].
Proof.
  intros w. split; [reflexivity|].
  destruct (execution_error_response w Sample.loop
              {| killed := false;
                 message := "Command failed: python3 /app/temp/3f0c/Program.py" |}
              eq_refl eq_refl eq_refl) as (out & msg & t & H & _ & _).
  reflexivity.
Defined.

(** C8 as it was stated fails: a standard error of white space only is not
    empty, and yet the output is the message of the error, not the trimmed
    standard error, which is the empty string. *)
Lemma execution_error_response_counterexample :
  let w := Sample.crashed (" " ++ newline) in
  exec_stderr w <> "" /\
  includes (exec_stderr w) "error" = false /\
  trimmed_of (exec_stderr w) "" /\
  responses (trace (run_program w Sample.loop))
  = [(500%Z, {| responseCode := 202;
                output := "Command failed: python3 /app/temp/3f0c/Program.py";
                errorMessage := "Runtime error occurred." |})].
Proof.
  intros w. split; [discriminate|]. split; [reflexivity|].
  split; [exact (trim_trimmed_of (" " ++ newline))|]. reflexivity.
Qed.

End ExecutionError.

(** ** The answer to a validation failure *)

Section ValidationFailure.
Import App.







End ValidationFailure.

(** ** The input file and the command that reads it *)

Section InputFileWritten.
Import App.

(** A command built with an input path ends with the redirection. *)
Lemma command_redirected (lang dir fileName filePath i c : string) :
  executionCommand lang dir fileName filePath (Some i) = Some c ->
  reads_from c i.
Proof.
  assert (E : executionCommand lang dir fileName filePath (Some i)
              = match executionCommand lang dir fileName filePath None with
                | Some base => Some (base ++ " < " ++ i)
                | None => None
                end).
  { unfold executionCommand.
    repeat match goal with
           | |- context [String.eqb lang ?k] => destruct (String.eqb lang k)
           end;
      try reflexivity; f_equal; now rewrite ?append_assoc. }
  rewrite E.
  destruct (executionCommand lang dir fileName filePath None) as [base|];
    [|discriminate].
  intros [= <-]. now exists base.
Qed.

(** C6, as amended.  For a request that reaches materialization (a first
    file, the source, is written) and whose writes succeed, the input file
    is written exactly when [input] is an array, empty or not.  It is
    [input.txt] in the workspace; for entries with an exact string form it
    holds the entries joined by newline; and a command that is spawned for
    an array input, the empty array too, reads its standard input from
    that file. *)
Theorem input_file_iff_array (w : env) (body : request)
    (source : string * jsval) (others : list (string * jsval)) :
  files_written (trace (run_program w body)) = source :: others ->
  write_source_result w = None -> write_input_result w = None ->
  (others <> [] <-> Js.is_array (input body) = true) /\
  (forall l, input body = JArr l -> entries_exact l ->
             others = [(input_path w, JStr (Js.array_join newline l))]) /\
  (others = [] \/ exists content, others = [(input_path w, content)]) /\
  (forall l c, input body = JArr l ->
               In c (commands (trace (run_program w body))) ->
               reads_from c (input_path w)).
Proof.
  intros Hf Hs Hi.
  assert (Hne : files_written (trace (run_program w body)) <> [])
    by (rewrite Hf; discriminate).
  destruct (materialized w body Hne) as (l0 & fn & _ & _ & _ & _ & E).
  rewrite E, bind_emit in Hf |- *. simpl trace in *.
  cbn [files_written commands] in *.
  rewrite (run_in_workspace_files _ _ _ _ _ Hs Hi) in Hf.
  injection Hf as _ Ho.
  split; [|split; [|split]].
  - rewrite <- Ho. unfold input_files.
    destruct (input body); simpl; split; congruence.
  - intros l El _. rewrite <- Ho. unfold input_files. now rewrite El.
  - rewrite <- Ho. unfold input_files.
    destruct (input body); solve [now left | right; eexists; reflexivity].
  - intros l c El Hin.
    assert (Hu : input_usable body) by (right; now rewrite El).
    destruct (command_of_usable_run w body (JsString.toLowerCase l0) fn Hs Hi Hu)
      as (Hc & _).
    rewrite Hc in Hin. unfold redirected in Hin. rewrite El in Hin.
    destruct (executionCommand (JsString.toLowerCase l0) (tempDir w) fn
                (Path.join (tempDir w) fn) (Some (input_path w))) as [c'|] eqn:Ec;
      [|contradiction].
    destruct Hin as [<- | []]. exact (command_redirected _ _ _ _ _ _ Ec).
Qed.

Lemma input_file_iff_array_witness :
  let body := Sample.python "print(input())" (JArr [JStr "4"; JNum 5]) in
  exists source others,
    files_written (trace (run_program Sample.world body)) = source :: others /\
    others = [("/app/temp/3f0c/input.txt", JStr ("4" ++ newline ++ "5"))] /\
    reads_from "python3 /app/temp/3f0c/Program.py < /app/temp/3f0c/input.txt"
      "/app/temp/3f0c/input.txt".
Proof.
  intros body.
  set (source := ("/app/temp/3f0c/Program.py", JStr "print(input())")).
  set (others := [("/app/temp/3f0c/input.txt", JStr ("4" ++ newline ++ "5"))]).
  exists source, others. split; [reflexivity|].
  destruct (input_file_iff_array Sample.world body source others
              eq_refl eq_refl eq_refl) as (_ & H & _ & Hc).
  split.
  - exact (H [JStr "4"; JNum 5] eq_refl eq_refl).
  - exact (Hc [JStr "4"; JNum 5] _ eq_refl (or_introl eq_refl)).
Defined.

(** X19.  An input that is falsy (null, false, 0 or the empty string) is
    treated as no input at all: the request is run exactly as the same
    request without the field. *)
Theorem falsy_input_ignored (w : env) (c l i : jsval) :
  Js.truthy i = false ->
  run_program w {| code := c; language := l; input := i |}
  = run_program w {| code := c; language := l; input := JUndefined |}.
Proof.
  intros Hi.
  assert (Hws : forall lo fn fp,
             run_in_workspace w {| code := c; language := l; input := i |} lo fn fp
             = run_in_workspace w {| code := c; language := l; input := JUndefined |}
                 lo fn fp).
  { intros lo fn fp. unfold run_in_workspace, try_block. simpl.
    now rewrite Hi. }
  unfold run_program, too_large. simpl. rewrite Hi. simpl.
  destruct (negb (Js.truthy c) || negb (Js.truthy l)); [reflexivity|].
  destruct (Js.gt (Js.length_of c) 5000 || false); [reflexivity|].
  destruct (call (Mkdir (tempDir w)) (mkdir_result w)) as [t [e|[]]];
    [reflexivity|]. simpl.
  destruct (toLowerCase l) as [t' [e|lower]]; [reflexivity|]. simpl.
  destruct (negb (property_truthy (fileExtensions_get lower))); [reflexivity|].
  destruct (String.eqb lower "java").
  - destruct (code_match c) as [t'' [e|[id|]]]; simpl; try reflexivity.
    destruct (negb (JsString.is_empty id)); [|reflexivity].
    now rewrite Hws.
  - now rewrite Hws.
Qed.

Lemma falsy_input_ignored_witness :
  Js.truthy (JStr "") = false /\
  run_program Sample.world (Sample.python "print(1+1)" (JStr ""))
  = run_program Sample.world (Sample.python "print(1+1)" JUndefined).
Proof.
  split; [reflexivity|].
  exact (falsy_input_ignored Sample.world (JStr "print(1+1)") (JStr "python")
           (JStr "") eq_refl).
Defined.

End InputFileWritten.
